(** * The gem generator dashboard backend (scripts/flask_server.py)

    A shallow embedding of the Flask service: the process-wide store
    (the [accounts] list, the [settings] dict and the [rate_limits]
    ledger), the seven views, the [rate_limit] decorator and the global
    error handler, followed by the properties of the specification.

    Modelling decisions, all of them visible in the definitions below:

    - Values decoded from JSON (bodies of the two remote services, the
      body of a settings POST) are Python objects of type None, bool,
      int, str, list or dict; they are the inductive type [json].  JSON
      numbers with a fraction or an exponent (Python floats) are outside
      the model.  Strings are byte strings; a dict is an association list
      in insertion order, with [dict_lookup] returning the first binding.
    - The Python operations the source applies to such values ([.get],
      subscription, [in], [==], [>], [-], truth value, [str]) raise
      TypeError, AttributeError or KeyError on the wrong type.  They are
      embedded with these failure cases, in an exception monad.
    - The outside world is an argument: the outcome of every outbound
      [requests.post], the value drawn by [random.randint], the wall
      clock text and the client address and time of a request.
    - [time.time()] is a float; request times are rationals and the
      subtraction [now - t] is exact (which it is for floats of the
      magnitude of Unix time that lie one window apart).
    - Requests are handled one at a time. *)

From Stdlib Require Import Ascii String QArith Lqa.
From stdpp Require Import base option list strings pretty gmap.

Open Scope string_scope.
Open Scope Z_scope.
Open Scope list_scope.

(** ** Python values and the operations the source uses *)

Module Py.

#[warnings="-register-all"]
Inductive json : Type :=
  | JNull
  | JBool (b : bool)
  | JInt (n : Z)
  | JStr (s : string)
  | JArr (items : list json)
  | JObj (fields : list (string * json)).

(** Exceptions.  [Timeout] stands for [requests.Timeout] and its
    subclasses, [Error] for every other [Exception]; the text is what
    [str(e)] returns. *)
Inductive exn : Type :=
  | Timeout (msg : string)
  | Error (msg : string).

Definition exn_str (e : exn) : string :=
  match e with Timeout m => m | Error m => m end.

Inductive result (A : Type) : Type :=
  | Val (a : A)
  | Raise (e : exn).
Arguments Val {A} a.
Arguments Raise {A} e.

Definition type_name (v : json) : string :=
  match v with
  | JNull => "NoneType"
  | JBool _ => "bool"
  | JInt _ => "int"
  | JStr _ => "str"
  | JArr _ => "list"
  | JObj _ => "dict"
  end.

(** [bool(v)] *)
Definition truthy (v : json) : bool :=
  match v with
  | JNull => false
  | JBool b => b
  | JInt n => negb (n =? 0)
  | JStr s => negb (String.eqb s "")
  | JArr l => match l with [] => false | _ => true end
  | JObj d => match d with [] => false | _ => true end
  end.

(** [a or b] on values *)
Definition py_or (a b : json) : json := if truthy a then a else b.

Fixpoint dict_lookup (k : string) (d : list (string * json)) : option json :=
  match d with
  | [] => None
  | (k', v) :: d' => if String.eqb k k' then Some v else dict_lookup k d'
  end.

(** bool is a subclass of int: [True == 1], [True > 0], [True - 0 == 1]. *)
Definition as_int (v : json) : option Z :=
  match v with
  | JBool b => Some (if b then 1 else 0)
  | JInt n => Some n
  | _ => None
  end.

(** [a == b] *)
Fixpoint py_eq (a b : json) {struct a} : bool :=
  match a, b with
  | JNull, JNull => true
  | JStr s, JStr t => String.eqb s t
  | JArr l, JArr m =>
      (fix eq_items (l m : list json) {struct l} : bool :=
         match l, m with
         | [], [] => true
         | x :: l', y :: m' => py_eq x y && eq_items l' m'
         | _, _ => false
         end) l m
  | JObj d, JObj e =>
      (length d =? length e)%nat &&
      (fix eq_fields (d : list (string * json)) : bool :=
         match d with
         | [] => true
         | (k, v) :: d' =>
             match dict_lookup k e with
             | Some w => py_eq v w && eq_fields d'
             | None => false
             end
         end) d
  | (JBool _ | JInt _), (JBool _ | JInt _) =>
      match as_int a, as_int b with
      | Some x, Some y => x =? y
      | _, _ => false
      end
  | _, _ => false
  end.

Definition str_gt (s t : string) : bool :=
  match String.compare s t with Gt => true | _ => false end.

Definition not_supported (op : string) (a b : json) : exn :=
  Error ("'" +:+ op +:+ "' not supported between instances of '" +:+
         type_name a +:+ "' and '" +:+ type_name b +:+ "'").

(** [a > b].  Lists compare at the first pair of items that are not
    [==]; values of unrelated types raise TypeError. *)
Fixpoint py_gt (a b : json) {struct a} : result bool :=
  match a, b with
  | JStr s, JStr t => Val (str_gt s t)
  | JArr l, JArr m =>
      (fix gt_items (l m : list json) {struct l} : result bool :=
         match l, m with
         | [], _ => Val false
         | _ :: _, [] => Val true
         | x :: l', y :: m' => if py_eq x y then gt_items l' m' else py_gt x y
         end) l m
  | (JBool _ | JInt _), (JBool _ | JInt _) =>
      match as_int a, as_int b with
      | Some x, Some y => Val (x >? y)
      | _, _ => Raise (not_supported ">" a b)
      end
  | _, _ => Raise (not_supported ">" a b)
  end.

(** [a - b] *)
Definition py_sub (a b : json) : result json :=
  match as_int a, as_int b with
  | Some x, Some y => Val (JInt (x - y))
  | _, _ =>
      Raise (Error ("unsupported operand type(s) for -: '" +:+ type_name a +:+
                    "' and '" +:+ type_name b +:+ "'"))
  end.

Definition dict_get (k : string) (d : list (string * json)) (default : json) : json :=
  match dict_lookup k d with Some x => x | None => default end.

(** [v.get(k, default)]: only a dict has the method. *)
Definition py_get (v : json) (k : string) (default : json) : result json :=
  match v with
  | JObj d => Val (dict_get k d default)
  | _ => Raise (Error ("'" +:+ type_name v +:+ "' object has no attribute 'get'"))
  end.

Fixpoint is_substring (needle s : string) : bool :=
  String.prefix needle s ||
  match s with
  | EmptyString => false
  | String _ s' => is_substring needle s'
  end.

(** [k in v] for a str [k]: key of a dict, item of a list, substring of
    a str; None, bool and int are not containers. *)
Definition py_in (k : string) (v : json) : result bool :=
  match v with
  | JObj d => Val (match dict_lookup k d with Some _ => true | None => false end)
  | JArr l => Val (existsb (fun x => py_eq x (JStr k)) l)
  | JStr s => Val (is_substring k s)
  | _ => Raise (Error ("argument of type '" +:+ type_name v +:+ "' is not iterable"))
  end.

Definition hex_digit (n : N) : ascii :=
  match String.get (N.to_nat n) "0123456789abcdef" with
  | Some c => c
  | None => "f"%char
  end.

Definition backslash : ascii := "092"%char.

Definition double_quote : ascii := "034"%char.

(** One character of [repr] of a str written between [quote]s. *)
Definition repr_char (quote c : ascii) : string :=
  let n := N_of_ascii c in
  if Ascii.eqb c quote || Ascii.eqb c backslash then String backslash (String c "")
  else if (n =? 9)%N then String backslash "t"
  else if (n =? 10)%N then String backslash "n"
  else if (n =? 13)%N then String backslash "r"
  else if (n <? 32)%N || (n =? 127)%N then
    String backslash (String "x" (String (hex_digit (n / 16)) (String (hex_digit (n mod 16)) "")))
  else String c "".

Fixpoint has_char (c : ascii) (s : string) : bool :=
  match s with
  | EmptyString => false
  | String c' s' => Ascii.eqb c c' || has_char c s'
  end.

Fixpoint repr_chars (quote : ascii) (s : string) : string :=
  match s with
  | EmptyString => ""
  | String c s' => repr_char quote c +:+ repr_chars quote s'
  end.

(** [repr(s)] of a str: single quotes, unless the text has a single
    quote and no double quote.  Bytes above 127 are kept as they are
    (Python escapes the non-printable code points among them). *)
Definition repr_str (s : string) : string :=
  let quote : ascii :=
    if has_char "'"%char s && negb (has_char double_quote s) then double_quote
    else "'"%char in
  String quote (repr_chars quote s +:+ String quote "").

Fixpoint join (sep : string) (l : list string) : string :=
  match l with
  | [] => ""
  | [x] => x
  | x :: l' => x +:+ sep +:+ join sep l'
  end.

(** [repr(v)] *)
Fixpoint py_repr (v : json) : string :=
  match v with
  | JNull => "None"
  | JBool b => if b then "True" else "False"
  | JInt n => pretty n
  | JStr s => repr_str s
  | JArr l => "[" +:+ join ", " (map py_repr l) +:+ "]"
  | JObj d =>
      "{" +:+ join ", " (map (fun kv => repr_str (fst kv) +:+ ": " +:+ py_repr (snd kv)) d) +:+ "}"
  end.

(** [str(v)], which is also what an f-string field renders. *)
Definition py_str (v : json) : string :=
  match v with
  | JStr s => s
  | _ => py_repr v
  end.

(** [v[k]] for a str [k] *)
Definition py_getitem (v : json) (k : string) : result json :=
  match v with
  | JObj d =>
      match dict_lookup k d with
      | Some x => Val x
      | None => Raise (Error (repr_str k))
      end
  | JArr _ => Raise (Error "list indices must be integers or slices, not str")
  | JStr _ => Raise (Error "string indices must be integers, not 'str'")
  | _ => Raise (Error ("'" +:+ type_name v +:+ "' object is not subscriptable"))
  end.

End Py.
Export Py.


(** ** The process-wide store *)

Inductive Status : Type := success | failed.

(** An entry of [accounts].  A success entry has the keys email,
    password, sessionToken, gems, timestamp and status; a failed one has
    email, password, timestamp, status and error.  An absent key is
    [None]. *)
Record Account : Type := {
  email : string;
  password : string;
  sessionToken : option json;
  gems : option json;
  timestamp : string;
  status : Status;
  error : option string
}.

Record Settings : Type := {
  main_session_token : json;
  local_id : json;
  total_gems : json;
  generation_count : Z
}.

(** The calls of [requests.post], kept in the store in the order they
    were made as a record of what the service sent out. *)
Inductive Call : Type :=
  | SignUp (email password : string)
  | InitData (token code : json)
  | InitBalance (session_token : json).

Record Store : Type := {
  accounts : list Account;
  settings : Settings;
  rate_limits : gmap string (list Q);
  outbound : list Call
}.

Definition initial_settings : Settings :=
  {| main_session_token := JStr ""; local_id := JStr "";
     total_gems := JInt 0; generation_count := 0 |}.

Definition initial_store : Store :=
  {| accounts := []; settings := initial_settings; rate_limits := ∅; outbound := [] |}.

Definition with_accounts (a : list Account) (s : Store) : Store :=
  {| accounts := a; settings := settings s;
     rate_limits := rate_limits s; outbound := outbound s |}.

Definition with_settings (st : Settings) (s : Store) : Store :=
  {| accounts := accounts s; settings := st;
     rate_limits := rate_limits s; outbound := outbound s |}.

Definition with_rate_limits (rl : gmap string (list Q)) (s : Store) : Store :=
  {| accounts := accounts s; settings := settings s;
     rate_limits := rl; outbound := outbound s |}.

Definition with_outbound (o : list Call) (s : Store) : Store :=
  {| accounts := accounts s; settings := settings s;
     rate_limits := rate_limits s; outbound := o |}.

Definition set_main_session_token (v : json) (st : Settings) : Settings :=
  {| main_session_token := v; local_id := local_id st;
     total_gems := total_gems st; generation_count := generation_count st |}.

Definition set_local_id (v : json) (st : Settings) : Settings :=
  {| main_session_token := main_session_token st; local_id := v;
     total_gems := total_gems st; generation_count := generation_count st |}.

Definition set_total_gems (v : json) (st : Settings) : Settings :=
  {| main_session_token := main_session_token st; local_id := local_id st;
     total_gems := v; generation_count := generation_count st |}.

Definition set_generation_count (n : Z) (st : Settings) : Settings :=
  {| main_session_token := main_session_token st; local_id := local_id st;
     total_gems := total_gems st; generation_count := n |}.

(** ** Views as computations on the store that may raise *)

Definition M (A : Type) : Type := Store → result A * Store.

#[global] Instance M_ret : MRet M := λ A a s, (Val a, s).

#[global] Instance M_bind : MBind M := λ A B f m s,
  match m s with
  | (Val a, s') => f a s'
  | (Raise e, s') => (Raise e, s')
  end.

Definition lift {A} (r : result A) : M A := λ s, (r, s).

Definition raise {A} (e : exn) : M A := λ s, (Raise e, s).

Definition gets {A} (f : Store → A) : M A := λ s, (Val (f s), s).

Definition modify (f : Store → Store) : M unit := λ s, (Val tt, f s).

(** [try: body except e: handler(e)]; what [body] wrote to the store
    before it raised stays written. *)
Definition try_except {A} (body : M A) (handler : exn → M A) : M A := λ s,
  match body s with
  | (Val a, s') => (Val a, s')
  | (Raise e, s') => handler e s'
  end.

(** What the remote end does with one [requests.post(...)] followed by
    [.json()]: either call raises, or the decoded body is returned. *)
Inductive Reply : Type :=
  | Raised (e : exn)
  | Replied (body : json).

Definition requests_post (c : Call) (r : Reply) : M json :=
  modify (λ s, with_outbound (outbound s ++ [c]) s);;
  match r with
  | Raised e => raise e
  | Replied v => mret v
  end.

Record Response : Type := { status_code : Z; body : json }.

Definition jsonify (v : json) : Response := {| status_code := 200; body := v |}.

Definition status_json (st : Status) : json :=
  match st with success => JStr "success" | failed => JStr "failed" end.

Definition opt_field (k : string) (o : option json) : list (string * json) :=
  match o with Some v => [(k, v)] | None => [] end.

Definition account_json (a : Account) : json :=
  JObj ([("email", JStr (email a)); ("password", JStr (password a))]
        ++ opt_field "sessionToken" (sessionToken a)
        ++ opt_field "gems" (gems a)
        ++ [("timestamp", JStr (timestamp a)); ("status", status_json (status a))]
        ++ opt_field "error" (JStr <$> error a)).

Definition settings_json (st : Settings) : json :=
  JObj [("main_session_token", main_session_token st); ("local_id", local_id st);
        ("total_gems", total_gems st); ("generation_count", JInt (generation_count st))].

Definition is_success (a : Account) : bool :=
  match status a with success => true | failed => false end.

Definition is_failed (a : Account) : bool :=
  match status a with success => false | failed => true end.

#[global] Instance Qlt_decision (x y : Q) : Decision (x < y)%Q :=
  decide (Qnum x * QDen y < Qnum y * QDen x)%Z.

Definition too_many_requests (window_seconds : Z) : Response :=
  {| status_code := 429;
     body := JObj [("error", JStr "Rate limit exceeded");
                   ("retry_after", JInt window_seconds)] |}.

(** [rate_limit(max_requests, window_seconds)] applied to the view [f],
    called by the client [client_ip] when [time.time()] is [now].  After
    the first statement the client has an entry, so [rate_limits[client_ip]]
    cannot raise; [default []] stands for that lookup. *)
Definition rate_limit (max_requests : nat) (window_seconds : Z) (f : M Response)
    (client_ip : string) (now : Q) : M Response :=
  rl ← gets rate_limits;
  modify (with_rate_limits
    (match rl !! client_ip with
     | Some ts =>
         <[client_ip := filter (λ t, (now - t < inject_Z window_seconds)%Q) ts]> rl
     | None => <[client_ip := []]> rl
     end));;
  rl ← gets rate_limits;
  if (max_requests <=? length (default [] (rl !! client_ip)))%nat then
    mret (too_many_requests window_seconds)
  else
    modify (with_rate_limits (<[client_ip := default [] (rl !! client_ip) ++ [now]]> rl));;
    f.

Definition generate_random_email (random_num : Z) : string :=
  "test" +:+ pretty random_num +:+ "@example.com".

Definition health_check (utcnow : string) : M Response :=
  mret (jsonify (JObj [("status", JStr "healthy"); ("timestamp", JStr utcnow);
                       ("version", JStr "1.0.0")])).

(** POST /api/settings; [posted] is [request.get_json(silent=True)],
    which is None when the body is absent or is not JSON. *)
Definition post_settings (posted : json) : M Response :=
  let data := py_or posted (JObj []) in
  has_token ← lift (py_in "main_session_token" data);
  (if has_token : bool then
     v ← lift (py_getitem data "main_session_token");
     modify (λ s, with_settings (set_main_session_token v (settings s)) s)
   else mret tt);;
  has_id ← lift (py_in "local_id" data);
  (if has_id : bool then
     v ← lift (py_getitem data "local_id");
     modify (λ s, with_settings (set_local_id v (settings s)) s)
   else mret tt);;
  st ← gets settings;
  mret (jsonify (JObj [("success", JBool true); ("settings", settings_json st)])).

Definition get_settings : M Response :=
  st ← gets settings;
  mret (jsonify (settings_json st)).

Definition get_accounts : M Response :=
  accs ← gets accounts;
  st ← gets settings;
  mret (jsonify (JObj
    [("accounts", JArr (map account_json accs));
     ("stats", JObj
        [("successful", JInt (Z.of_nat (length (List.filter is_success accs))));
         ("failed", JInt (Z.of_nat (length (List.filter is_failed accs))));
         ("total", JInt (generation_count st))])])).

Definition balance_failure (msg : string) : M Response :=
  st ← gets settings;
  mret (jsonify (JObj [("gems", total_gems st); ("error", JStr msg)])).

(** GET /api/balance; [reply] is what the backend does with the one
    request the view may send. *)
Definition get_balance (reply : Reply) : M Response :=
  st ← gets settings;
  if negb (truthy (main_session_token st)) then
    mret (jsonify (JObj [("error", JStr "No session token configured"); ("gems", JInt 0)]))
  else
    try_except
      (data ← requests_post (InitBalance (main_session_token st)) reply;
       code ← lift (py_get data "code" JNull);
       cond ← (if py_eq code (JInt 1) then lift (py_get data "data" JNull)
               else mret (JBool false));
       if truthy cond then
         d ← lift (py_getitem data "data");
         new_gems ← lift (py_get d "gems" (JInt 0));
         old_gems ← gets (λ s, total_gems (settings s));
         modify (λ s, with_settings (set_total_gems new_gems (settings s)) s);;
         increased ← lift (py_gt new_gems old_gems);
         bigger ← lift (py_gt new_gems old_gems);
         diff ← (if bigger : bool then lift (py_sub new_gems old_gems) else mret (JInt 0));
         mret (jsonify (JObj [("gems", new_gems); ("increased", JBool increased);
                              ("diff", diff)]))
       else balance_failure "Invalid response")
      (λ e, match e with
            | Timeout _ => balance_failure "Request timed out"
            | Error msg => balance_failure msg
            end).

(** What the outside does during one iteration of the loop of
    [generate_account]: the number [random.randint] draws, the outcome
    of the signup request, the outcome of the init_data request (used
    only when the iteration sends it) and the text of
    [datetime.now().strftime('%H:%M:%S')] when a record is built. *)
Record AttemptEnv : Type := {
  random_num : Z;
  signup_reply : Reply;
  init_reply : Reply;
  clock : string
}.

Definition max_attempts : nat := 10.

(** The body of the [try] of one iteration.  [None] is [continue],
    [Some r] is [return r]. *)
Definition attempt_try (password : string) (env : AttemptEnv) (email : string)
    : M (option Response) :=
  signup_data ← requests_post (SignUp email password) (signup_reply env);
  err ← lift (py_get signup_data "error" (JObj []));
  msg ← lift (py_get err "message" JNull);
  if py_eq msg (JStr "EMAIL_EXISTS") then mret None
  else
    id_token ← lift (py_get signup_data "idToken" JNull);
    if truthy id_token then
      st ← gets settings;
      local_id ← (if truthy (local_id st) then mret (local_id st)
                  else lift (py_get signup_data "localId" (JStr "")));
      token ← lift (py_getitem signup_data "idToken");
      init_data ← requests_post (InitData token local_id) (init_reply env);
      code ← lift (py_get init_data "code" JNull);
      cond ← (if py_eq code (JInt 1) then lift (py_get init_data "data" JNull)
              else mret (JBool false));
      if truthy cond then
        d ← lift (py_getitem init_data "data");
        session_token ← lift (py_get d "session_token" (JStr ""));
        d ← lift (py_getitem init_data "data");
        gems ← lift (py_get d "gems" (JInt 0));
        let new_account :=
          {| email := email; password := password;
             sessionToken := Some session_token; gems := Some gems;
             timestamp := clock env; status := success; error := None |} in
        modify (λ s, with_accounts (new_account :: accounts s) s);;
        modify (λ s, with_settings
          (set_generation_count (generation_count (settings s) + 1) (settings s)) s);;
        mret (Some (jsonify (JObj [("success", JBool true);
                                   ("account", account_json new_account)])))
      else raise (Error "Failed to initialize account")
    else
      err ← lift (py_get signup_data "error" (JObj []));
      error_msg ← lift (py_get err "message" (JStr "Signup failed"));
      raise (Error (py_str error_msg)).

(** One iteration: the [try] with its two [except] clauses. *)
Definition attempt_once (password : string) (attempt : nat) (env : AttemptEnv)
    : M (option Response) :=
  let email := generate_random_email (random_num env) in
  try_except (attempt_try password env email)
    (λ e, match e with
          | Timeout _ => mret None
          | Error msg =>
              if (attempt =? max_attempts - 1)%nat then
                let failed_account :=
                  {| email := email; password := password;
                     sessionToken := None; gems := None;
                     timestamp := clock env; status := failed; error := Some msg |} in
                modify (λ s, with_accounts (failed_account :: accounts s) s);;
                mret (Some (jsonify (JObj [("success", JBool false);
                                           ("error", JStr msg);
                                           ("account", account_json failed_account)])))
              else mret None
          end).

Definition max_attempts_reached : Response :=
  jsonify (JObj [("success", JBool false); ("error", JStr "Max attempts reached")]).

(** [for attempt in attempts: ...] followed by the final [return]. *)
Fixpoint for_attempts (password : string) (env : nat → AttemptEnv) (attempts : list nat)
    : M Response :=
  match attempts with
  | [] => mret max_attempts_reached
  | attempt :: rest =>
      r ← attempt_once password attempt (env attempt);
      match r with
      | Some response => mret response
      | None => for_attempts password env rest
      end
  end.

(** The undecorated view of POST /api/generate. *)
Definition generate_account (env : nat → AttemptEnv) : M Response :=
  let password := "testuad12334" in
  for_attempts password env (seq 0 max_attempts).

Definition newline : string := String "010"%char "".

(** The five entries [export_accounts] appends to [content] for one account. *)
Definition export_entry (acc : Account) : list string :=
  ["Email: " +:+ email acc;
   "Password: " +:+ password acc;
   "Session Token: " +:+ py_str (default (JStr "N/A") (sessionToken acc));
   "Gems: " +:+ py_str (default (JInt 0) (gems acc));
   "---"].

Definition export_accounts : M Response :=
  accs ← gets accounts;
  let success_accounts := List.filter is_success accs in
  let content := concat (map export_entry success_accounts) in
  mret (jsonify (JObj [("content", JStr (join newline content));
                       ("count", JInt (Z.of_nat (length success_accounts)))])).

Definition clear_accounts : M Response :=
  modify (with_accounts []);;
  modify (λ s, with_settings (set_generation_count 0 (settings s)) s);;
  mret (jsonify (JObj [("success", JBool true)])).

(** ** Requests and dispatch *)

Inductive Request : Type :=
  | GetHealth (utcnow : string)
  | GetSettings
  | PostSettings (posted : json)
  | GetAccounts
  | GetBalance (reply : Reply)
  | PostGenerate (client_ip : string) (now : Q) (env : nat → AttemptEnv)
  | GetExport
  | Clear.

Definition api_generate (client_ip : string) (now : Q) (env : nat → AttemptEnv)
    : M Response :=
  rate_limit 5 60 (generate_account env) client_ip now.

Definition view (req : Request) : M Response :=
  match req with
  | GetHealth utcnow => health_check utcnow
  | GetSettings => get_settings
  | PostSettings posted => post_settings posted
  | GetAccounts => get_accounts
  | GetBalance reply => get_balance reply
  | PostGenerate client_ip now env => api_generate client_ip now env
  | GetExport => export_accounts
  | Clear => clear_accounts
  end.

(** [@app.errorhandler(Exception)] *)
Definition handle_exception (debug : bool) (e : exn) : Response :=
  {| status_code := 500;
     body := JObj [("error", JStr "Internal server error");
                   ("message", JStr (if debug then exn_str e
                                     else "An unexpected error occurred"))] |}.

(** One request served by the application started with [app.debug = debug]. *)
Definition serve (debug : bool) (req : Request) (s : Store) : Response * Store :=
  match view req s with
  | (Val response, s') => (response, s')
  | (Raise e, s') => (handle_exception debug e, s')
  end.

Fixpoint serve_all (debug : bool) (reqs : list Request) (s : Store) : Store :=
  match reqs with
  | [] => s
  | req :: reqs' => serve_all debug reqs' (snd (serve debug req s))
  end.

(** ** Vocabulary of the properties *)

(** *** Settings *)

(** The value a settings POST leaves under key [k]: the posted one when
    the body is a dict that has the key, the old one otherwise. *)
Definition posted_value (k : string) (posted old : json) : json :=
  match posted with
  | JObj d => default old (dict_lookup k d)
  | _ => old
  end.

(** The settings a settings POST leaves. *)
Definition merge_posted (posted : json) (st : Settings) : Settings :=
  {| main_session_token := posted_value "main_session_token" posted (main_session_token st);
     local_id := posted_value "local_id" posted (local_id st);
     total_gems := total_gems st;
     generation_count := generation_count st |}.

(** *** The balance poll *)

(** The store after one more call of [requests.post]. *)
Definition sent (c : Call) (s : Store) : Store := with_outbound (outbound s ++ [c]) s.

(** The data of a success envelope: the body is a dict whose [code]
    is [== 1] and whose [data] is a non-empty dict. *)
Definition success_envelope (data : json) : option (list (string * json)) :=
  match data with
  | JObj fields =>
      if py_eq (dict_get "code" fields JNull) (JInt 1) then
        match dict_lookup "data" fields with
        | Some (JObj (x :: d)) => Some (x :: d)
        | _ => None
        end
      else None
  | _ => None
  end.

(** The backend failed before [get_balance] stored anything: the
    request or the decoding raised, or the body is no success envelope. *)
Definition failed_before_update (reply : Reply) : Prop :=
  match reply with
  | Raised _ => True
  | Replied data => success_envelope data = None
  end.

(** The stores a balance poll can leave. *)
Inductive balance_store (s : Store) : Store → Prop :=
  | balance_nothing_sent : balance_store s s
  | balance_sent c : balance_store s (sent c s)
  | balance_updated c g :
      balance_store s (with_settings (set_total_gems g (settings s)) (sent c s)).

(** *** Outcomes of one iteration of [generate_account] *)

(** The identity provider answers that the address is taken: the body
    is a dict whose [error] is a dict whose [message] is EMAIL_EXISTS. *)
Definition says_email_exists (r : Reply) : bool :=
  match r with
  | Replied (JObj fields) =>
      match dict_lookup "error" fields with
      | Some (JObj err) =>
          match dict_lookup "message" err with
          | Some (JStr m) => String.eqb m "EMAIL_EXISTS"
          | _ => false
          end
      | _ => false
      end
  | _ => false
  end.

(** The signup yields a credential: the body is a dict with a true
    [idToken] whose [error], if any, is a dict that does not say
    EMAIL_EXISTS. *)
Definition signup_credential (r : Reply) : option json :=
  match r with
  | Replied (JObj fields) =>
      match dict_get "error" fields (JObj []) with
      | JObj err =>
          if py_eq (dict_get "message" err JNull) (JStr "EMAIL_EXISTS") then None
          else if truthy (dict_get "idToken" fields JNull)
               then Some (dict_get "idToken" fields JNull)
               else None
      | _ => None
      end
  | _ => None
  end.

(** The exchange succeeds: the backend answers a success envelope. *)
Definition exchange_data (r : Reply) : option (list (string * json)) :=
  match r with
  | Replied data => success_envelope data
  | Raised _ => None
  end.

Definition attempt_succeeds (e : AttemptEnv) : bool :=
  bool_decide (is_Some (signup_credential (signup_reply e))) &&
  bool_decide (is_Some (exchange_data (init_reply e))).

Definition the_password : string := "testuad12334".

Definition email_of (e : AttemptEnv) : string := generate_random_email (random_num e).

Definition success_account (e : AttemptEnv) (d : list (string * json)) : Account :=
  {| email := email_of e; password := the_password;
     sessionToken := Some (dict_get "session_token" d (JStr ""));
     gems := Some (dict_get "gems" d (JInt 0));
     timestamp := clock e; status := success; error := None |}.

Definition failed_account (e : AttemptEnv) (msg : string) : Account :=
  {| email := email_of e; password := the_password;
     sessionToken := None; gems := None;
     timestamp := clock e; status := failed; error := Some msg |}.

Definition success_response (a : Account) : Response :=
  jsonify (JObj [("success", JBool true); ("account", account_json a)]).

Definition failure_response (msg : string) (a : Account) : Response :=
  jsonify (JObj [("success", JBool false); ("error", JStr msg);
                 ("account", account_json a)]).

Definition record_success (a : Account) (s : Store) : Store :=
  with_settings (set_generation_count (generation_count (settings s) + 1) (settings s))
    (with_accounts (a :: accounts s) s).

Definition record_failure (a : Account) (s : Store) : Store :=
  with_accounts (a :: accounts s) s.

Definition sent_all (calls : list Call) (s : Store) : Store :=
  with_outbound (outbound s ++ calls) s.

(** The addresses of the signup requests among [calls], in order. *)
Fixpoint signups (calls : list Call) : list string :=
  match calls with
  | [] => []
  | SignUp email _ :: calls' => email :: signups calls'
  | _ :: calls' => signups calls'
  end.

(** What the [try] of one iteration can come to. *)
Inductive try_result (e : AttemptEnv) (s : Store)
    : result (option Response) * Store → Prop :=
  | try_continue :
      try_result e s (Val None, sent (SignUp (email_of e) the_password) s)
  | try_raise_signup ex :
      try_result e s (Raise ex, sent (SignUp (email_of e) the_password) s)
  | try_raise_init ex token code :
      try_result e s
        (Raise ex, sent (InitData token code) (sent (SignUp (email_of e) the_password) s))
  | try_success token code d :
      signup_credential (signup_reply e) = Some token →
      exchange_data (init_reply e) = Some d →
      try_result e s
        (Val (Some (success_response (success_account e d))),
         record_success (success_account e d)
           (sent (InitData token code) (sent (SignUp (email_of e) the_password) s))).

(** What one iteration can come to: [continue], the return of a success,
    or, on the last iteration only, the return of a failure. *)
Inductive attempt_result (attempt : nat) (e : AttemptEnv) (s : Store)
    : result (option Response) * Store → Prop :=
  | attempt_continue calls :
      signups calls = [email_of e] →
      attempt_result attempt e s (Val None, sent_all calls s)
  | attempt_success calls d :
      signups calls = [email_of e] →
      attempt_succeeds e = true →
      exchange_data (init_reply e) = Some d →
      attempt_result attempt e s
        (Val (Some (success_response (success_account e d))),
         record_success (success_account e d) (sent_all calls s))
  | attempt_failure calls msg :
      signups calls = [email_of e] →
      attempt = (max_attempts - 1)%nat →
      attempt_result attempt e s
        (Val (Some (failure_response msg (failed_account e msg))),
         record_failure (failed_account e msg) (sent_all calls s)).

(** *** Outcomes of the loop of [generate_account] *)

Definition emails (env : nat → AttemptEnv) (attempts : list nat) : list string :=
  map (λ i, email_of (env i)) attempts.

(** What the loop over [attempts] followed by the final [return] can
    come to.  [calls] are the requests sent; the iterations run are
    those of [attempts] up to the one that returned. *)
Inductive loop_result (env : nat → AttemptEnv) (attempts : list nat) (s : Store)
    : result Response * Store → Prop :=
  | loop_exhausted calls :
      signups calls = emails env attempts →
      loop_result env attempts s (Val max_attempts_reached, sent_all calls s)
  | loop_success before i after calls d :
      attempts = before ++ i :: after →
      signups calls = emails env (before ++ [i]) →
      attempt_succeeds (env i) = true →
      exchange_data (init_reply (env i)) = Some d →
      loop_result env attempts s
        (Val (success_response (success_account (env i) d)),
         record_success (success_account (env i) d) (sent_all calls s))
  | loop_failure before i after calls msg :
      attempts = before ++ i :: after →
      signups calls = emails env (before ++ [i]) →
      i = (max_attempts - 1)%nat →
      loop_result env attempts s
        (Val (failure_response msg (failed_account (env i) msg)),
         record_failure (failed_account (env i) msg) (sent_all calls s)).

(** [generation_count] is the number of success records in [accounts]. *)
Definition counts_successes (s : Store) : Prop :=
  generation_count (settings s) = Z.of_nat (length (List.filter is_success (accounts s))).

(** *** The rate-limit ledger *)

(** The timestamps the ledger holds for a client. *)
Definition ledger (s : Store) (client_ip : string) : list Q :=
  default [] (rate_limits s !! client_ip).

(** The timestamps of [ts] inside the window that ends at [now]. *)
Definition within (window_seconds : Z) (now : Q) (ts : list Q) : list Q :=
  filter (λ t, (now - t < inject_Z window_seconds)%Q) ts.

(** The time of [req] when it is a generate call of [client_ip]. *)
Definition generate_time (client_ip : string) (req : Request) : list Q :=
  match req with
  | PostGenerate ip now _ => if bool_decide (ip = client_ip) then [now] else []
  | _ => []
  end.


Definition generate_times (client_ip : string) (reqs : list Request) : list Q :=
  concat (map (generate_time client_ip) reqs).


(** *** The exported text, read line by line *)

Definition newline_char : ascii := "010"%char.

(** [text.split('\n')] *)
Fixpoint split_lines (text : string) : list string :=
  match text with
  | EmptyString => [""]
  | String c rest =>
      if Ascii.eqb newline_char c then "" :: split_lines rest
      else match split_lines rest with
           | line :: lines => String c line :: lines
           | [] => [String c ""]
           end
  end.

Definition is_email_line (line : string) : bool := String.prefix "Email:" line.

Definition email_lines (text : string) : list string :=
  List.filter is_email_line (split_lines text).

Definition single_line (text : string) : bool := negb (has_char newline_char text).

(** The four values [export_accounts] renders for an account hold no
    line break. *)
Definition renders_on_single_lines (a : Account) : Prop :=
  single_line (email a) = true ∧
  single_line (password a) = true ∧
  single_line (py_str (default (JStr "N/A") (sessionToken a))) = true ∧
  single_line (py_str (default (JInt 0) (gems a))) = true.

(** *** Concrete inputs *)

(** A store with a session token configured and a balance stored. *)
Definition configured (token : string) (stored_gems : json) : Store :=
  with_settings
    (set_total_gems stored_gems (set_main_session_token (JStr token) initial_settings))
    initial_store.

(** A success envelope of the backend with data [d]. *)
Definition envelope (d : list (string * json)) : json :=
  JObj [("code", JInt 1); ("data", JObj d)].

(** The identity provider answers that the address is taken. *)
Definition email_exists_reply : Reply :=
  Replied (JObj [("error", JObj [("code", JInt 400); ("message", JStr "EMAIL_EXISTS")])]).

(** The identity provider creates the account. *)
Definition credential_reply : Reply :=
  Replied (JObj [("idToken", JStr "id-token"); ("localId", JStr "uid")]).

(** The backend opens a session with a balance of 3. *)
Definition exchange_reply : Reply :=
  Replied (envelope [("session_token", JStr "session"); ("gems", JInt 3)]).

(** The same two answers at every iteration; iteration [i] draws
    [100000 + i]. *)
Definition always (signup init : Reply) (i : nat) : AttemptEnv :=
  {| random_num := 100000 + Z.of_nat i; signup_reply := signup; init_reply := init;
     clock := "12:00:00" |}.

(** Two collisions, then a signup and an exchange that succeed. *)
Definition third_time_lucky (i : nat) : AttemptEnv :=
  if (i <? 2)%nat then always email_exists_reply exchange_reply i
  else always credential_reply exchange_reply i.

(** A generation that gave up on the last iteration with the
    exchange refused: every signup yields a credential, every exchange is
    answered with code 0. *)
Definition refused (i : nat) : AttemptEnv :=
  always credential_reply (Replied (JObj [("code", JInt 0)])) i.

(** An exchange whose session token holds a line break. *)
Definition two_line_token : string :=
  "session" +:+ newline +:+ "Email: nobody@example.com".

(** Every signup yields a credential and every exchange that token. *)
Definition two_line_exchange (i : nat) : AttemptEnv :=
  always credential_reply
    (Replied (envelope [("session_token", JStr two_line_token); ("gems", JInt 3)])) i.

(** Five generate calls of one client, one second apart from time 0. *)
Definition five_calls (client_ip : string) : list Request :=
  map (λ i, PostGenerate client_ip (inject_Z (Z.of_nat i))
              (always email_exists_reply exchange_reply))
      (seq 0 5).

(** Unfolds the monad of the views down to functions on the store. *)
Ltac run :=
  cbv [mbind M_bind mret M_ret lift raise gets modify try_except requests_post
       balance_failure] in *; cbn [fst snd] in *.

(** *** Further vocabulary: the ledger *)

(** Every client's ledger holds at most [n] timestamps. *)
Definition ledgers_bounded (n : nat) (s : Store) : Prop :=
  ∀ client_ip, (length (ledger s client_ip) ≤ n)%nat.

(** A ledger of [client_ip] that holds the timestamps [ts]. *)
Definition with_ledger (client_ip : string) (ts : list Q) : Store :=
  with_rate_limits {[ client_ip := ts ]} initial_store.

(** *** Further vocabulary: settings and the balance poll *)

(** [__main__] starts the application with [debug] unless the
    environment variable FLASK_ENV is "production"; [flask_env] is
    [os.environ.get('FLASK_ENV')]. *)
Definition is_production (flask_env : option string) : bool :=
  match flask_env with
  | Some v => String.eqb v "production"
  | None => false
  end.

Definition main_debug (flask_env : option string) : bool :=
  negb (is_production flask_env).

(** The posted bodies on which the settings POST raises: a true value
    that is no container ([in] fails), and a str or a list in which [in]
    finds one of the two keys (the subscription then fails). *)
Definition settings_post_raises (posted : json) : bool :=
  match posted with
  | JBool b => b
  | JInt n => negb (n =? 0)
  | JStr str => is_substring "main_session_token" str || is_substring "local_id" str
  | JArr l =>
      existsb (λ x, py_eq x (JStr "main_session_token")) l ||
      existsb (λ x, py_eq x (JStr "local_id")) l
  | JNull | JObj _ => false
  end.

(** A body that is a dict but no success envelope for the views: its
    [code] is not [== 1], or its [data] is missing or false (an empty
    object, null, 0, an empty text). *)
Definition refuses (fields : list (string * json)) : bool :=
  negb (py_eq (dict_get "code" fields JNull) (JInt 1)) ||
  negb (truthy (dict_get "data" fields JNull)).

Definition balance_error (s : Store) (msg : string) : Response :=
  jsonify (JObj [("gems", total_gems (settings s)); ("error", JStr msg)]).

(** *** Further vocabulary: iterations of [generate_account] that fail *)

(** The text with which the identity provider rejects a signup: the
    body is a dict with no true [idToken] whose [error], if any, is a
    dict that does not say EMAIL_EXISTS; the text is [str] of its
    [message], "Signup failed" when there is none. *)
Definition rejection_text (r : Reply) : option string :=
  match r with
  | Replied (JObj fields) =>
      match dict_get "error" fields (JObj []) with
      | JObj err =>
          if py_eq (dict_get "message" err JNull) (JStr "EMAIL_EXISTS") then None
          else if truthy (dict_get "idToken" fields JNull) then None
               else Some (py_str (dict_get "message" err (JStr "Signup failed")))
      | _ => None
      end
  | _ => None
  end.

(** The iteration raises an exception other than a timeout, of text
    [msg]: the signup request raises it, the provider rejects the signup,
    or with a credential the exchange request raises it or is answered
    by a dict that [refuses]. *)
Definition attempt_fails_with (e : AttemptEnv) (msg : string) : Prop :=
  signup_reply e = Raised (Error msg) ∨
  rejection_text (signup_reply e) = Some msg ∨
  (is_Some (signup_credential (signup_reply e)) ∧
   (init_reply e = Raised (Error msg) ∨
    ∃ fields, init_reply e = Replied (JObj fields) ∧ refuses fields = true ∧
              msg = "Failed to initialize account")).

(** The iteration ends by a collision or a timeout. *)
Definition attempt_passes (e : AttemptEnv) : Prop :=
  says_email_exists (signup_reply e) = true ∨
  (∃ m, signup_reply e = Raised (Timeout m)) ∨
  (is_Some (signup_credential (signup_reply e)) ∧ ∃ m, init_reply e = Raised (Timeout m)).

(** The continuation code of the exchange request: the configured
    [local_id] when it is true, else the [localId] of the signup. *)
Definition continuation_code (st : Settings) (r : Reply) : json :=
  py_or (local_id st)
    (match r with
     | Replied (JObj fields) => dict_get "localId" fields (JStr "")
     | _ => JStr ""
     end).

(** The provider rejects the signup for a weak password. *)
Definition weak_password_reply : Reply :=
  Replied (JObj [("error", JObj [("code", JInt 400); ("message", JStr "WEAK_PASSWORD")])]).

(** Nine iterations whose exchange is refused, then a signup that times
    out. *)
Definition refused_then_timeout (i : nat) : AttemptEnv :=
  if (i <? 9)%nat then refused i
  else always (Raised (Timeout "Read timed out.")) exchange_reply i.

(** What an iteration does with an exception other than a timeout:
    the last one records the failure and returns it, the others go on. *)
Definition after_failure (attempt : nat) (e : AttemptEnv) (msg : string) (s : Store)
    : result (option Response) * Store :=
  if (attempt =? max_attempts - 1)%nat then
    (Val (Some (failure_response msg (failed_account e msg))),
     record_failure (failed_account e msg) s)
  else (Val None, s).

(** *** Further vocabulary: the export *)

(** The text [export_accounts] answers for a list of accounts. *)
Definition export_content (accs : list Account) : string :=
  join newline (concat (map export_entry (List.filter is_success accs))).

Definition export_response (content : string) (count : nat) : Response :=
  jsonify (JObj [("content", JStr content); ("count", JInt (Z.of_nat count))]).

(** A list of accounts with one failed and one success record. *)
Definition one_of_each : list Account :=
  [failed_account (refused 9) "Failed to initialize account";
   success_account (third_time_lucky 2) [("session_token", JStr "session"); ("gems", JInt 3)]].

(** * Properties *)

Example py_repr_nested :
  py_str (JObj [("a", JArr [JInt 1; JBool true; JNull]); ("b", JStr "it's"); ("c", JStr "x")])
  = String.concat (String double_quote "")
      ["{'a': [1, True, None], 'b': "; "it's"; ", 'c': 'x'}"].
Proof. reflexivity. Qed.

Lemma with_settings_same s : with_settings (settings s) s = s.
Proof. by destruct s. Qed.

Lemma py_or_dict d : py_or (JObj d) (JObj []) = JObj d.
Proof. by destruct d. Qed.

Lemma post_settings_dict d s :
  post_settings (JObj d) s =
  (Val (jsonify (JObj [("success", JBool true);
                       ("settings", settings_json (merge_posted (JObj d) (settings s)))])),
   with_settings (merge_posted (JObj d) (settings s)) s).
Proof.
  unfold post_settings. rewrite py_or_dict. unfold py_in, py_getitem, merge_posted, posted_value.
  run.
  destruct (dict_lookup "main_session_token" d), (dict_lookup "local_id" d);
    destruct s as [a [t l g c] rl o]; reflexivity.
Qed.

Lemma post_settings_falsy v s :
  truthy v = false → post_settings v s = post_settings (JObj []) s.
Proof. intros H. unfold post_settings, py_or. rewrite H. reflexivity. Qed.

Lemma post_settings_store posted s :
  snd (post_settings posted s) = with_settings (merge_posted posted (settings s)) s.
Proof.
  assert (Hid : ∀ v, (∀ d, v ≠ JObj d) →
                 with_settings (merge_posted v (settings s)) s = s).
  { intros v Hv. destruct s as [a [t l g c] rl o].
    destruct v; try reflexivity. by destruct (Hv fields). }
  assert (Hempty : snd (post_settings (JObj []) s) = s).
  { rewrite post_settings_dict. destruct s as [a [t l g c] rl o]; reflexivity. }
  destruct (truthy posted) eqn:Ht.
  - destruct posted as [ | b | n | str | l | d ]; try discriminate Ht.
    + rewrite Hid by done. unfold post_settings, py_or. rewrite Ht. reflexivity.
    + rewrite Hid by done. unfold post_settings, py_or. rewrite Ht. reflexivity.
    + rewrite Hid by done. unfold post_settings, py_or. rewrite Ht.
      cbn [py_in py_getitem]. run.
      destruct (is_substring "main_session_token" str); [reflexivity|].
      destruct (is_substring "local_id" str); reflexivity.
    + rewrite Hid by done. unfold post_settings, py_or. rewrite Ht.
      cbn [py_in py_getitem]. run.
      destruct (existsb (λ x0, py_eq x0 (JStr "main_session_token")) l); [reflexivity|].
      destruct (existsb (λ x0, py_eq x0 (JStr "local_id")) l); reflexivity.
    + by rewrite post_settings_dict.
  - rewrite post_settings_falsy, Hempty by done.
    destruct posted as [ | b | n | str | l | d ]; try (by rewrite Hid).
    destruct d; [|discriminate Ht].
    destruct s as [a [t l g c] rl o]; reflexivity.
Qed.

(** C4. From any store, [clear] leaves [accounts] empty and
    [generation_count] 0 and answers success; a second [clear] gives the
    same answer and the same store. *)
Theorem clear_accounts_idempotent (debug : bool) (s : Store) :
  let once := serve debug Clear s in
  let twice := serve debug Clear (snd once) in
  accounts (snd once) = [] ∧
  generation_count (settings (snd once)) = 0 ∧
  fst once = jsonify (JObj [("success", JBool true)]) ∧
  fst twice = fst once ∧
  snd twice = snd once.
Proof.
  destruct s as [a [t l g c] rl o]. repeat split; reflexivity.
Qed.

(** C10. A settings POST changes [main_session_token] and [local_id]
    only, each only when the posted body is a dict that has the key;
    [total_gems] and [generation_count] (and the rest of the store) are
    the same afterwards for every body, whatever keys it has. *)
Theorem post_settings_frame (debug : bool) (posted : json) (s : Store) :
  let s' := snd (serve debug (PostSettings posted) s) in
  total_gems (settings s') = total_gems (settings s) ∧
  generation_count (settings s') = generation_count (settings s) ∧
  main_session_token (settings s') =
    posted_value "main_session_token" posted (main_session_token (settings s)) ∧
  local_id (settings s') = posted_value "local_id" posted (local_id (settings s)) ∧
  accounts s' = accounts s ∧
  rate_limits s' = rate_limits s ∧
  outbound s' = outbound s.
Proof.
  intros s'.
  assert (E : s' = with_settings (merge_posted posted (settings s)) s).
  { subst s'. rewrite <- post_settings_store. unfold serve, view.
    by destruct (post_settings posted s) as [[r|e] s1]. }
  rewrite E. repeat split; reflexivity.
Qed.

Example post_settings_ignores_counters :
  settings (snd (serve false
    (PostSettings (JObj [("total_gems", JInt 99); ("generation_count", JInt 5);
                         ("local_id", JStr "abc")])) initial_store))
  = set_local_id (JStr "abc") initial_settings.
Proof. reflexivity. Qed.

(** ** The balance poll *)

Lemma try_except_returns {A} (body : M A) (handler : exn → M A) s :
  (∀ e s1, ∃ a s2, handler e s1 = (Val a, s2)) →
  ∃ a s', try_except body handler s = (Val a, s').
Proof.
  intros Hh. unfold try_except. destruct (body s) as [[a|e] s1]; eauto.
Qed.

Lemma get_balance_returns reply s : ∃ r s', get_balance reply s = (Val r, s').
Proof.
  unfold get_balance. unfold mbind at 1, M_bind at 1, gets at 1.
  destruct (negb (truthy (main_session_token (settings s)))); [by eexists _, _|].
  apply try_except_returns. intros [m|m] s1; by eexists _, _.
Qed.

Lemma get_balance_no_token reply s :
  truthy (main_session_token (settings s)) = false →
  get_balance reply s =
    (Val (jsonify (JObj [("error", JStr "No session token configured"); ("gems", JInt 0)])), s).
Proof. intros H. unfold get_balance. run. rewrite H. reflexivity. Qed.

Lemma get_balance_failed_before_update reply s :
  truthy (main_session_token (settings s)) = true →
  failed_before_update reply →
  ∃ msg, get_balance reply s =
    (Val (jsonify (JObj [("gems", total_gems (settings s)); ("error", JStr msg)])),
     sent (InitBalance (main_session_token (settings s))) s).
Proof.
  intros Ht Hf. unfold get_balance. run. rewrite Ht. cbn [negb].
  destruct reply as [[m|m]|data]; [by eexists|by eexists|].
  cbn in Hf.
  destruct data as [ | b | n | str | l | fields ]; try (by eexists).
  cbn [py_get]. unfold success_envelope in Hf.
  destruct (py_eq (dict_get "code" fields JNull) (JInt 1)); [|by eexists].
  cbn [py_getitem]. unfold dict_get at 1.
  destruct (dict_lookup "data" fields) as [v|]; [|by eexists].
  destruct v as [ | b | n | str | l | d ]; cbn [truthy].
  - by eexists.
  - destruct b; by eexists.
  - destruct (n =? 0); by eexists.
  - destruct (String.eqb str ""); by eexists.
  - destruct l; by eexists.
  - destruct d; [by eexists|discriminate Hf].
Qed.

Lemma gtb_bool_decide (g old : Z) : (g >? old) = bool_decide (old < g).
Proof.
  rewrite Z.gtb_ltb. destruct (Z.ltb_spec old g).
  - by rewrite bool_decide_eq_true_2.
  - rewrite bool_decide_eq_false_2; [done|lia].
Qed.

Lemma get_balance_envelope (s : Store) (data : json) d (g old : Z) :
  truthy (main_session_token (settings s)) = true →
  total_gems (settings s) = JInt old →
  success_envelope data = Some d →
  dict_get "gems" d (JInt 0) = JInt g →
  get_balance (Replied data) s =
    (Val (jsonify (JObj [("gems", JInt g);
                         ("increased", JBool (bool_decide (old < g)));
                         ("diff", JInt (if bool_decide (old < g) then g - old else 0))])),
     with_settings (set_total_gems (JInt g) (settings s))
       (sent (InitBalance (main_session_token (settings s))) s)).
Proof.
  intros Ht Hold Henv Hg. unfold get_balance. run. rewrite Ht. cbn [negb].
  destruct data as [ | b | n | str | l | fields ]; try discriminate Henv.
  unfold success_envelope in Henv. cbn [py_get].
  destruct (py_eq (dict_get "code" fields JNull) (JInt 1)); [|discriminate Henv].
  cbn [py_getitem]. unfold dict_get at 1.
  destruct (dict_lookup "data" fields) as [[ | b | n | str | l | [|x d'] ]|];
    try discriminate Henv.
  injection Henv as <-. cbn [truthy py_get]. rewrite Hg.
  unfold sent, with_settings, with_outbound; cbn [settings accounts rate_limits outbound].
  rewrite Hold. cbn [py_gt as_int py_sub]. rewrite gtb_bool_decide.
  destruct (bool_decide (old < g)); reflexivity.
Qed.

(** An integer balance stays an integer as long as the backend fails
    before the update or answers success envelopes with an integer (or
    no) [gems]. *)
Lemma get_balance_keeps_integer (reply : Reply) (s : Store) (old : Z) :
  total_gems (settings s) = JInt old →
  failed_before_update reply ∨
    (∃ data d g, reply = Replied data ∧ success_envelope data = Some d ∧
                 dict_get "gems" d (JInt 0) = JInt g) →
  ∃ new, total_gems (settings (snd (get_balance reply s))) = JInt new.
Proof.
  intros Hold Hreply.
  destruct (truthy (main_session_token (settings s))) eqn:Ht.
  - destruct Hreply as [Hfail|[data [d [g [-> [Henv Hg]]]]]].
    + destruct (get_balance_failed_before_update reply s Ht Hfail) as [msg ->]. by exists old.
    + rewrite (get_balance_envelope s data d g old Ht Hold Henv Hg). by exists g.
  - rewrite get_balance_no_token by done. by exists old.
Qed.

(** C6. With a token configured and an integer balance [old] stored, a
    success envelope whose data carries the integer [g] under [gems]
    makes the poll store [g] and answer [g], the flag [g > old] and the
    difference [g - old] when it is positive, 0 otherwise. *)
Theorem get_balance_reports_increase (s : Store) (data : json) d (g old : Z) :
  truthy (main_session_token (settings s)) = true →
  total_gems (settings s) = JInt old →
  success_envelope data = Some d →
  dict_lookup "gems" d = Some (JInt g) →
  get_balance (Replied data) s =
    (Val (jsonify (JObj [("gems", JInt g);
                         ("increased", JBool (bool_decide (old < g)));
                         ("diff", JInt (if bool_decide (old < g) then g - old else 0))])),
     with_settings (set_total_gems (JInt g) (settings s))
       (sent (InitBalance (main_session_token (settings s))) s)).
Proof.
  intros Ht Hold Henv Hg. apply (get_balance_envelope s data d g old); try done.
  unfold dict_get. by rewrite Hg.
Qed.

Lemma get_balance_reports_increase_witness :
  get_balance (Replied (envelope [("session_token", JStr "m"); ("gems", JInt 12)]))
    (configured "m" (JInt 5))
  = (Val (jsonify (JObj [("gems", JInt 12); ("increased", JBool true); ("diff", JInt 7)])),
     sent (InitBalance (JStr "m")) (configured "m" (JInt 12))).
Proof.
  exact (get_balance_reports_increase (configured "m" (JInt 5))
           (envelope [("session_token", JStr "m"); ("gems", JInt 12)])
           [("session_token", JStr "m"); ("gems", JInt 12)] 12 5
           eq_refl eq_refl eq_refl eq_refl).
Defined.

(** C5 as stated does not hold: a success envelope whose [gems] is
    null is stored before the comparison with the old balance raises,
    so the poll answers with an error annotation, the stored balance is
    no longer the last known one, and the answer carries the new value. *)
Lemma get_balance_failure_after_update :
  let s := configured "m" (JInt 5) in
  let r := get_balance (Replied (envelope [("gems", JNull)])) s in
  fst r = Val (jsonify (JObj
            [("gems", JNull);
             ("error", JStr "'>' not supported between instances of 'NoneType' and 'int'")])) ∧
  total_gems (settings (snd r)) ≠ total_gems (settings s).
Proof. split; [reflexivity | discriminate]. Qed.

(** C5, amended.  The poll never raises.  Without a configured token it
    answers gems 0 with the annotation "No session token configured"
    and sends nothing.  With a token, when the request or the decoding of
    its body raises (a timeout or anything else) or the body is no
    success envelope, it answers the stored [total_gems] with an error
    annotation and the store is as before but for the request sent. *)
Theorem get_balance_always_answers (reply : Reply) (s : Store) :
  (∃ r s', get_balance reply s = (Val r, s')) ∧
  (truthy (main_session_token (settings s)) = false →
   get_balance reply s =
     (Val (jsonify (JObj [("error", JStr "No session token configured");
                          ("gems", JInt 0)])), s)) ∧
  (truthy (main_session_token (settings s)) = true →
   failed_before_update reply →
   ∃ msg, get_balance reply s =
     (Val (jsonify (JObj [("gems", total_gems (settings s)); ("error", JStr msg)])),
      sent (InitBalance (main_session_token (settings s))) s)).
Proof.
  split; [apply get_balance_returns|]. split.
  - apply get_balance_no_token.
  - apply get_balance_failed_before_update.
Qed.

Lemma get_balance_always_answers_witness :
  get_balance (Raised (Timeout "read timed out")) initial_store =
    (Val (jsonify (JObj [("error", JStr "No session token configured");
                         ("gems", JInt 0)])), initial_store) ∧
  ∃ msg, get_balance (Replied (JObj [("code", JInt 0)])) (configured "m" (JInt 5)) =
    (Val (jsonify (JObj [("gems", JInt 5); ("error", JStr msg)])),
     sent (InitBalance (JStr "m")) (configured "m" (JInt 5))).
Proof.
  split.
  - exact (proj1 (proj2 (get_balance_always_answers _ initial_store)) eq_refl).
  - exact (proj2 (proj2 (get_balance_always_answers (Replied (JObj [("code", JInt 0)]))
                           (configured "m" (JInt 5)))) eq_refl eq_refl).
Defined.

(** ** One iteration of the generation loop *)

Lemma attempt_try_result e s :
  try_result e s (attempt_try the_password e (email_of e) s).
Proof.
  unfold attempt_try. run.
  destruct (signup_reply e) as [ex|sd] eqn:Hs; [apply try_raise_signup|].
  destruct sd as [ | b | n | str | l | fields ]; try apply try_raise_signup.
  cbn [py_get].
  destruct (dict_get "error" fields (JObj [])) as [ | b | n | str | l | err ] eqn:He;
    try apply try_raise_signup.
  cbn [py_get].
  destruct (py_eq (dict_get "message" err JNull) (JStr "EMAIL_EXISTS")) eqn:Hm;
    [apply try_continue|].
  destruct (truthy (dict_get "idToken" fields JNull)) eqn:Hid; [|apply try_raise_signup].
  assert (Hc : signup_credential (Replied (JObj fields)) = Some (dict_get "idToken" fields JNull)).
  { unfold signup_credential. by rewrite He, Hm, Hid. }
  rewrite <- Hs in Hc.
  destruct (truthy (local_id (settings (with_outbound _ s))));
  ( cbn [py_getitem];
    destruct (dict_lookup "idToken" fields) as [tok|] eqn:Htok; [|apply try_raise_signup];
    assert (Htok' : dict_get "idToken" fields JNull = tok)
      by (unfold dict_get; by rewrite Htok);
    rewrite Htok' in Hc;
    destruct (init_reply e) as [ex|idata] eqn:Hi; [apply try_raise_init|];
    destruct idata as [ | b | n | str | l | ifields ]; try apply try_raise_init;
    cbn [py_get];
    destruct (py_eq (dict_get "code" ifields JNull) (JInt 1)) eqn:Hcode;
      [|apply try_raise_init];
    destruct (truthy (dict_get "data" ifields JNull)) eqn:Hd; [|apply try_raise_init];
    cbn [py_getitem]; unfold dict_get in Hd;
    destruct (dict_lookup "data" ifields) as [dv|] eqn:Hdv; [|apply try_raise_init];
    destruct dv as [ | b | n | str | l | d ]; try apply try_raise_init;
    destruct d as [|x d]; [discriminate Hd|];
    cbn [py_get];
    apply (try_success e s tok _ (x :: d) Hc);
    rewrite Hi; unfold exchange_data, success_envelope; by rewrite Hcode, Hdv ).
Qed.

Lemma sent_one c s : sent c s = sent_all [c] s.
Proof. reflexivity. Qed.

Lemma sent_two c1 c2 s : sent c2 (sent c1 s) = sent_all [c1; c2] s.
Proof.
  unfold sent, sent_all, with_outbound; cbn [accounts settings rate_limits outbound].
  by rewrite <- app_assoc.
Qed.

Lemma sent_all_app c1 c2 s : sent_all c2 (sent_all c1 s) = sent_all (c1 ++ c2) s.
Proof.
  unfold sent_all, with_outbound; cbn [accounts settings rate_limits outbound].
  by rewrite <- app_assoc.
Qed.

Lemma sent_all_nil s : sent_all [] s = s.
Proof. destruct s. unfold sent_all, with_outbound; cbn. by rewrite app_nil_r. Qed.

Lemma signups_app c1 c2 : signups (c1 ++ c2) = signups c1 ++ signups c2.
Proof.
  induction c1 as [|c c1 IH]; [done|]. destruct c; cbn; by rewrite IH.
Qed.

Lemma attempt_succeeds_intro e token d :
  signup_credential (signup_reply e) = Some token →
  exchange_data (init_reply e) = Some d →
  attempt_succeeds e = true.
Proof.
  intros H1 H2. unfold attempt_succeeds. rewrite H1, H2.
  by rewrite !bool_decide_eq_true_2 by eauto.
Qed.

Lemma attempt_once_result attempt e s :
  attempt_result attempt e s (attempt_once the_password attempt e s).
Proof.
  unfold attempt_once, try_except.
  change (generate_random_email (random_num e)) with (email_of e).
  destruct (attempt_try_result e s) as [ | ex | ex token code | token code d Hc Hd ].
  - rewrite sent_one. by apply attempt_continue.
  - rewrite sent_one. destruct ex as [m|m].
    + by apply attempt_continue.
    + destruct (attempt =? max_attempts - 1)%nat eqn:Hlast.
      * apply Nat.eqb_eq in Hlast. by apply attempt_failure.
      * by apply attempt_continue.
  - rewrite sent_two. destruct ex as [m|m].
    + by apply attempt_continue.
    + destruct (attempt =? max_attempts - 1)%nat eqn:Hlast.
      * apply Nat.eqb_eq in Hlast. by apply attempt_failure.
      * by apply attempt_continue.
  - rewrite sent_two. apply attempt_success; [done| |done].
    by eapply attempt_succeeds_intro.
Qed.

(** An iteration whose signup is answered EMAIL_EXISTS sends that one
    request and continues. *)
Lemma attempt_once_email_exists attempt e s :
  says_email_exists (signup_reply e) = true →
  attempt_once the_password attempt e s =
    (Val None, sent (SignUp (email_of e) the_password) s).
Proof.
  intros H. unfold attempt_once, try_except, attempt_try. run.
  change (generate_random_email (random_num e)) with (email_of e).
  unfold says_email_exists in H.
  destruct (signup_reply e) as [ex|[ | b | n | str | l | fields ]]; try discriminate H.
  cbn [py_get]. unfold dict_get at 1.
  destruct (dict_lookup "error" fields) as [[ | b | n | str | l | err ]|];
    try discriminate H.
  cbn [py_get]. unfold dict_get at 1.
  destruct (dict_lookup "message" err) as [[ | b | n | str | l | err' ]|];
    try discriminate H.
  cbn [py_eq]. by rewrite H.
Qed.

(** An iteration whose signup and exchange succeed records the account
    and returns it. *)
Lemma attempt_once_succeeds attempt e s :
  attempt_succeeds e = true →
  ∃ calls d,
    signups calls = [email_of e] ∧
    exchange_data (init_reply e) = Some d ∧
    attempt_once the_password attempt e s =
      (Val (Some (success_response (success_account e d))),
       record_success (success_account e d) (sent_all calls s)).
Proof.
  intros Hok. unfold attempt_succeeds in Hok.
  apply andb_true_iff in Hok as [[token Hc]%bool_decide_eq_true [d Hd]%bool_decide_eq_true].
  assert (Hrun : ∃ code, attempt_try the_password e (email_of e) s =
            (Val (Some (success_response (success_account e d))),
             record_success (success_account e d)
               (sent (InitData token code) (sent (SignUp (email_of e) the_password) s)))).
  { unfold attempt_try. run.
    unfold signup_credential in Hc. unfold exchange_data, success_envelope in Hd.
    destruct (signup_reply e) as [ex|[ | b | n | str | l | fields ]]; try discriminate Hc.
    cbn [py_get].
    destruct (dict_get "error" fields (JObj [])) as [ | b | n | str | l | err ];
      try discriminate Hc.
    cbn [py_get].
    destruct (py_eq (dict_get "message" err JNull) (JStr "EMAIL_EXISTS"));
      [discriminate Hc|].
    destruct (truthy (dict_get "idToken" fields JNull)) eqn:Hid; [|discriminate Hc].
    injection Hc as <-.
    cbn [py_getitem]. unfold dict_get in Hid |- * at 2.
    destruct (dict_lookup "idToken" fields) as [tok|]; [|discriminate Hid].
    destruct (init_reply e) as [ex|[ | b | n | str | l | ifields ]]; try discriminate Hd.
    cbn [py_get].
    destruct (py_eq (dict_get "code" ifields JNull) (JInt 1)); [|discriminate Hd].
    cbn [py_getitem]. unfold dict_get at 2.
    destruct (dict_lookup "data" ifields) as [[ | b | n | str | l | [|x d'] ]|];
      try discriminate Hd.
    injection Hd as <-. cbn [truthy py_get].
    destruct (truthy (local_id (settings (with_outbound _ s)))); by eexists. }
  destruct Hrun as [code Hrun].
  exists [SignUp (email_of e) the_password; InitData token code], d.
  split; [done|]. split; [done|].
  unfold attempt_once, try_except.
  change (generate_random_email (random_num e)) with (email_of e).
  by rewrite Hrun, sent_two.
Qed.

(** ** The generation loop *)

Lemma record_success_sent_all a calls1 calls2 s :
  record_success a (sent_all calls2 (sent_all calls1 s)) =
  record_success a (sent_all (calls1 ++ calls2) s).
Proof. by rewrite sent_all_app. Qed.

Lemma for_attempts_result env attempts s :
  loop_result env attempts s (for_attempts the_password env attempts s).
Proof.
  revert s. induction attempts as [|i rest IH]; intros s.
  - cbn [for_attempts]. unfold mret, M_ret. rewrite <- (sent_all_nil s) at 2.
    by apply loop_exhausted.
  - cbn [for_attempts]. unfold mbind, M_bind.
    destruct (attempt_once_result i (env i) s) as [calls Hc | calls d Hc Hok Hd | calls msg Hc Hi].
    + destruct (IH (sent_all calls s))
        as [calls' Hc' | before j after calls' d Hsplit Hc' Hok Hd
            | before j after calls' msg Hsplit Hc' Hj].
      * rewrite sent_all_app. apply loop_exhausted.
        rewrite signups_app, Hc, Hc'. reflexivity.
      * rewrite sent_all_app. apply (loop_success _ _ _ (i :: before) j after); [|  |done|done].
        -- by rewrite Hsplit.
        -- rewrite signups_app, Hc, Hc'. reflexivity.
      * rewrite sent_all_app. apply (loop_failure _ _ _ (i :: before) j after); [| |done].
        -- by rewrite Hsplit.
        -- rewrite signups_app, Hc, Hc'. reflexivity.
    + unfold mret, M_ret. by apply (loop_success _ _ _ [] i rest).
    + unfold mret, M_ret. by apply (loop_failure _ _ _ [] i rest).
Qed.

Lemma for_attempts_email_exists env attempts s :
  (∀ i, i ∈ attempts → says_email_exists (signup_reply (env i)) = true) →
  for_attempts the_password env attempts s =
    (Val max_attempts_reached,
     sent_all (map (λ i, SignUp (email_of (env i)) the_password) attempts) s).
Proof.
  revert s. induction attempts as [|i rest IH]; intros s H.
  - cbn. by rewrite sent_all_nil.
  - cbn [for_attempts]. unfold mbind, M_bind.
    rewrite attempt_once_email_exists by (apply H; left).
    rewrite IH by (intros j Hj; apply H; by right).
    rewrite sent_one, sent_all_app. reflexivity.
Qed.

(** Iterations that neither succeed nor are the last one pass the store
    on with only their requests added. *)
Lemma for_attempts_skip env before rest s :
  (∀ i, i ∈ before → attempt_succeeds (env i) = false ∧ i ≠ (max_attempts - 1)%nat) →
  ∃ calls, signups calls = emails env before ∧
    for_attempts the_password env (before ++ rest) s =
    for_attempts the_password env rest (sent_all calls s).
Proof.
  revert s. induction before as [|i before IH]; intros s H.
  - exists []. by rewrite sent_all_nil.
  - destruct (H i) as [Hno Hlast]; [left|].
    cbn [app for_attempts]. unfold mbind, M_bind.
    destruct (attempt_once_result i (env i) s) as [calls Hc | calls d Hc Hok Hd | calls msg Hc Hi];
      [|congruence|congruence].
    destruct (IH (sent_all calls s)) as [calls' [Hc' Hrun]].
    { intros j Hj. apply H. by right. }
    exists (calls ++ calls'). split.
    + rewrite signups_app, Hc, Hc'. reflexivity.
    + by rewrite Hrun, sent_all_app.
Qed.

Lemma first_true_below (f : nat → bool) n :
  (∀ i, (i < n)%nat → f i = false) ∨
  ∃ m, (m < n)%nat ∧ f m = true ∧ ∀ i, (i < m)%nat → f i = false.
Proof.
  induction n as [|n [IH|[m [Hm [Hfm Hmin]]]]].
  - left. intros i Hi. lia.
  - destruct (f n) eqn:Hfn.
    + right. exists n. split; [lia|]. by split.
    + left. intros i Hi. destruct (decide (i = n)) as [->|]; [done|]. apply IH. lia.
  - right. exists m. split; [lia|]. by split.
Qed.

Lemma first_true (f : nat → bool) n :
  f n = true → ∃ m, (m ≤ n)%nat ∧ f m = true ∧ ∀ i, (i < m)%nat → f i = false.
Proof.
  intros Hn. destruct (first_true_below f n) as [Hnone|[m [Hm [Hfm Hmin]]]].
  - exists n. split; [lia|]. by split.
  - exists m. split; [lia|]. by split.
Qed.

Lemma seq_split_at m n :
  (m < n)%nat → seq 0 n = seq 0 m ++ m :: seq (S m) (n - S m).
Proof.
  intros H. replace n with (m + S (n - S m))%nat at 1 by lia.
  by rewrite seq_app.
Qed.

(** C1. When the identity provider answers EMAIL_EXISTS to the signup
    of each of the 10 iterations, [generate_account] returns the generic
    failure "Max attempts reached" and neither [accounts] nor [settings]
    has changed: no record, success or failed, was added.  The 10 signup
    requests are all that was sent. *)
Theorem generate_account_all_email_exists (env : nat → AttemptEnv) (s : Store) :
  (∀ i, (i < max_attempts)%nat → says_email_exists (signup_reply (env i)) = true) →
  let r := generate_account env s in
  fst r = Val (jsonify (JObj [("success", JBool false);
                              ("error", JStr "Max attempts reached")])) ∧
  accounts (snd r) = accounts s ∧
  settings (snd r) = settings s ∧
  outbound (snd r) =
    outbound s ++ map (λ i, SignUp (email_of (env i)) the_password) (seq 0 max_attempts).
Proof.
  intros H r. subst r. unfold generate_account.
  change "testuad12334" with the_password.
  rewrite for_attempts_email_exists.
  - repeat split; reflexivity.
  - intros i Hi. apply H. apply elem_of_seq in Hi. lia.
Qed.

Lemma generate_account_all_email_exists_witness :
  let r := generate_account (always email_exists_reply exchange_reply) initial_store in
  fst r = Val (jsonify (JObj [("success", JBool false);
                              ("error", JStr "Max attempts reached")])) ∧
  accounts (snd r) = [] ∧
  settings (snd r) = initial_settings ∧
  outbound (snd r) =
    [] ++ map (λ i, SignUp (email_of (always email_exists_reply exchange_reply i)) the_password)
            (seq 0 max_attempts).
Proof.
  apply (generate_account_all_email_exists (always email_exists_reply exchange_reply)
           initial_store).
  intros i Hi. reflexivity.
Defined.

(** C2. When the signup and the exchange of some iteration [n] (counted
    from 0, so [n < 10]) succeed, [generate_account] returns at the
    first such iteration [m <= n]: it puts exactly one record, of status
    success, at the head of [accounts], adds exactly 1 to
    [generation_count], answers success with that record, and has sent
    the signup requests of the iterations 0..m and of no later one. *)
Theorem generate_account_success (env : nat → AttemptEnv) (s : Store) (n : nat) :
  (n < max_attempts)%nat →
  attempt_succeeds (env n) = true →
  ∃ m d calls,
    (m ≤ n)%nat ∧
    attempt_succeeds (env m) = true ∧
    (∀ i, (i < m)%nat → attempt_succeeds (env i) = false) ∧
    exchange_data (init_reply (env m)) = Some d ∧
    let a := success_account (env m) d in
    let r := generate_account env s in
    fst r = Val (jsonify (JObj [("success", JBool true); ("account", account_json a)])) ∧
    status a = success ∧
    accounts (snd r) = a :: accounts s ∧
    generation_count (settings (snd r)) = generation_count (settings s) + 1 ∧
    outbound (snd r) = outbound s ++ calls ∧
    signups calls = emails env (seq 0 (S m)).
Proof.
  intros Hn Hok.
  destruct (first_true (λ i, attempt_succeeds (env i)) n Hok) as [m [Hm [Hokm Hmin]]].
  destruct (for_attempts_skip env (seq 0 m) (m :: seq (S m) (max_attempts - S m)) s)
    as [calls [Hcalls Hrun]].
  { intros i Hi. apply elem_of_seq in Hi. split; [apply Hmin; lia|lia]. }
  destruct (attempt_once_succeeds m (env m) (sent_all calls s) Hokm)
    as [calls' [d [Hcalls' [Hd Hm_run]]]].
  exists m, d, (calls ++ calls'). split; [done|]. split; [done|]. split; [done|].
  split; [done|]. intros a r. subst r. unfold generate_account.
  change "testuad12334" with the_password.
  rewrite (seq_split_at m max_attempts) by lia. rewrite Hrun.
  cbn [for_attempts]. unfold mbind, M_bind. rewrite Hm_run. unfold mret, M_ret.
  rewrite sent_all_app. cbn [fst snd].
  split; [done|]. split; [done|]. split; [done|]. split; [done|]. split; [done|].
  rewrite signups_app, Hcalls, Hcalls'. unfold emails.
  replace (S m) with (m + 1)%nat by lia. by rewrite seq_app, map_app.
Qed.

Lemma generate_account_success_witness :
  ∃ m d calls,
    (m ≤ 2)%nat ∧
    attempt_succeeds (third_time_lucky m) = true ∧
    (∀ i, (i < m)%nat → attempt_succeeds (third_time_lucky i) = false) ∧
    exchange_data (init_reply (third_time_lucky m)) = Some d ∧
    let a := success_account (third_time_lucky m) d in
    let r := generate_account third_time_lucky initial_store in
    fst r = Val (jsonify (JObj [("success", JBool true); ("account", account_json a)])) ∧
    status a = success ∧
    accounts (snd r) = a :: accounts initial_store ∧
    generation_count (settings (snd r)) = generation_count (settings initial_store) + 1 ∧
    outbound (snd r) = outbound initial_store ++ calls ∧
    signups calls = emails third_time_lucky (seq 0 (S m)).
Proof.
  apply (generate_account_success third_time_lucky initial_store 2).
  - unfold max_attempts. lia.
  - reflexivity.
Defined.

Example third_time_lucky_run :
  let r := generate_account third_time_lucky initial_store in
  length (accounts (snd r)) = 1%nat ∧
  generation_count (settings (snd r)) = 1 ∧
  signups (outbound (snd r)) =
    ["test100000@example.com"; "test100001@example.com"; "test100002@example.com"].
Proof. repeat split; reflexivity. Qed.

Lemma seq_middle n before i after :
  seq 0 n = before ++ i :: after →
  i = length before ∧ (length before < n)%nat ∧ before ++ [i] = seq 0 (S (length before)).
Proof.
  intros H.
  assert (Hi : seq 0 n !! length before = Some i).
  { rewrite H. by apply list_lookup_middle. }
  apply lookup_seq in Hi as [-> Hlt]. cbn [Nat.add] in *. split; [done|]. split; [done|].
  rewrite (seq_split_at (length before) n Hlt) in H.
  apply app_inj_1 in H as [<- _]; [|by rewrite length_seq].
  by rewrite length_seq, seq_S.
Qed.

(** C9. [generate_account] always returns, after running the
    iterations 0..k-1 for some [1 <= k <= 10]: it has sent one signup
    request for each of them and for no other.  It comes to the generic
    failure "Max attempts reached" only with [k = 10], and it returns
    before the tenth iteration only with a success.  Every iteration
    sends exactly one signup request, however it ends; one that does not
    succeed and is not the tenth (a collision, a timeout or any other
    failure) continues with the next. *)
Theorem generate_account_bounded (env : nat → AttemptEnv) (s : Store) :
  (∃ r s' calls k,
     generate_account env s = (Val r, s') ∧
     outbound s' = outbound s ++ calls ∧
     (1 ≤ k ≤ max_attempts)%nat ∧
     signups calls = emails env (seq 0 k) ∧
     (r = max_attempts_reached → k = max_attempts) ∧
     ((k < max_attempts)%nat → ∃ a, status a = success ∧ r = success_response a)) ∧
  (∀ attempt e s0, ∃ o s1 calls,
     attempt_once the_password attempt e s0 = (Val o, s1) ∧
     outbound s1 = outbound s0 ++ calls ∧
     signups calls = [email_of e]) ∧
  (∀ attempt e s0,
     attempt_succeeds e = false →
     attempt ≠ (max_attempts - 1)%nat →
     ∃ calls,
       attempt_once the_password attempt e s0 = (Val None, sent_all calls s0) ∧
       signups calls = [email_of e]).
Proof.
  split; [|split].
  - unfold generate_account. change "testuad12334" with the_password.
    destruct (for_attempts_result env (seq 0 max_attempts) s)
      as [calls Hc | before i after calls d Hsplit Hc Hok Hd
          | before i after calls msg Hsplit Hc Hi].
    + eexists _, _, calls, max_attempts. split; [done|]. split; [done|].
      split; [unfold max_attempts; lia|]. split; [done|]. split; [done|]. lia.
    + apply seq_middle in Hsplit as [-> [Hlt Hseq]].
      eexists _, _, calls, (S (length before)). split; [done|]. split; [done|].
      split; [lia|]. split; [by rewrite Hc, Hseq|]. split; [discriminate|].
      intros _. by exists (success_account (env (length before)) d).
    + apply seq_middle in Hsplit as [Hlen [Hlt Hseq]].
      eexists _, _, calls, (S (length before)). split; [done|]. split; [done|].
      split; [lia|]. split; [by rewrite Hc, Hseq|]. split; [discriminate|].
      unfold max_attempts in *. lia.
  - intros attempt e s0.
    destruct (attempt_once_result attempt e s0) as [calls Hc | calls d Hc Hok Hd | calls msg Hc Hi];
      by eexists _, _, calls.
  - intros attempt e s0 Hno Hnotlast.
    destruct (attempt_once_result attempt e s0) as [calls Hc | calls d Hc Hok Hd | calls msg Hc Hi];
      [by exists calls|congruence|congruence].
Qed.

Lemma generate_account_bounded_witness :
  ∃ calls,
    attempt_once the_password 3 (always (Raised (Timeout "Read timed out.")) exchange_reply 3)
      initial_store = (Val None, sent_all calls initial_store) ∧
    signups calls = ["test100003@example.com"].
Proof.
  apply (proj2 (proj2 (generate_account_bounded third_time_lucky initial_store))).
  - reflexivity.
  - unfold max_attempts. lia.
Defined.

(** ** What a request leaves of the store *)

Lemma get_balance_store reply s : balance_store s (snd (get_balance reply s)).
Proof.
  unfold get_balance. run.
  destruct (negb (truthy (main_session_token (settings s)))); [apply balance_nothing_sent|].
  destruct reply as [[m|m]|data]; try apply balance_sent.
  destruct data as [ | b | n | str | l | fields ]; try apply balance_sent.
  cbn [py_get].
  destruct (py_eq (dict_get "code" fields JNull) (JInt 1)); [|apply balance_sent].
  destruct (truthy (dict_get "data" fields JNull)); [|apply balance_sent].
  destruct (py_getitem (JObj fields) "data") as [d|[m|m]]; try apply balance_sent.
  destruct (py_get d "gems" (JInt 0)) as [g|[m|m]]; try apply balance_sent.
  cbn [settings with_outbound with_settings].
  destruct (py_gt g (total_gems (settings s))) as [[|]|[m|m]]; try apply balance_updated.
  destruct (py_sub g (total_gems (settings s))) as [diff|[m|m]]; apply balance_updated.
Qed.

Lemma generate_account_store env s :
  loop_result env (seq 0 max_attempts) s (generate_account env s).
Proof. apply for_attempts_result. Qed.

Lemma rate_limit_unfold max_requests window_seconds f client_ip now s :
  rate_limit max_requests window_seconds f client_ip now s =
  let kept := filter (λ t, (now - t < inject_Z window_seconds)%Q)
                (default [] (rate_limits s !! client_ip)) in
  if (max_requests <=? length kept)%nat then
    (Val (too_many_requests window_seconds),
     with_rate_limits (<[client_ip := kept]> (rate_limits s)) s)
  else
    f (with_rate_limits (<[client_ip := kept ++ [now]]> (rate_limits s)) s).
Proof.
  unfold rate_limit. run.
  destruct (rate_limits s !! client_ip) as [ts|] eqn:Hl;
    cbn [rate_limits with_rate_limits default from_option id];
    rewrite lookup_insert_eq; cbn [default from_option id];
    (destruct (max_requests <=? _)%nat; [reflexivity|]);
    unfold with_rate_limits; cbn [accounts settings rate_limits outbound];
    by rewrite insert_insert_eq.
Qed.

(** The accounts and the settings after a request, in terms of those
    before: nothing, one record at the head, or the effect of [clear],
    of a settings POST or of a balance poll. *)
Lemma counts_successes_frame s s' :
  accounts s' = accounts s →
  generation_count (settings s') = generation_count (settings s) →
  counts_successes s → counts_successes s'.
Proof. unfold counts_successes. by intros -> ->. Qed.

Lemma loop_result_counts env attempts s rs :
  loop_result env attempts s rs → counts_successes s → counts_successes (snd rs).
Proof.
  unfold counts_successes.
  intros [calls _ | before i after calls d _ _ _ _ | before i after calls msg _ _ _] H;
    cbn; lia.
Qed.

Lemma api_generate_counts client_ip now env s :
  counts_successes s → counts_successes (snd (api_generate client_ip now env s)).
Proof.
  intros H. unfold api_generate. rewrite rate_limit_unfold. cbv zeta.
  destruct (5 <=? _)%nat; [done|].
  by apply (loop_result_counts env (seq 0 max_attempts) _ _ (generate_account_store _ _)).
Qed.

Lemma serve_snd debug req s : snd (serve debug req s) = snd (view req s).
Proof. unfold serve. by destruct (view req s) as [[r|e] s']. Qed.

Lemma serve_counts debug req s :
  counts_successes s → counts_successes (snd (serve debug req s)).
Proof.
  intros H. rewrite serve_snd. destruct req; cbn [view]; try exact H.
  - rewrite post_settings_store. exact H.
  - destruct (get_balance_store reply s); exact H.
  - by apply api_generate_counts.
  - reflexivity.
Qed.

Lemma serve_all_counts debug reqs s :
  counts_successes s → counts_successes (serve_all debug reqs s).
Proof.
  revert s. induction reqs as [|req reqs IH]; intros s H; [done|].
  cbn [serve_all]. apply IH. by apply serve_counts.
Qed.





(** ** The rate limiter *)



Lemma generate_account_returns env s :
  ∃ r s',
    generate_account env s = (Val r, s') ∧
    status_code r = 200 ∧
    rate_limits s' = rate_limits s.
Proof.
  destruct (generate_account_store env s)
    as [calls _ | before i after calls d _ _ _ _ | before i after calls msg _ _ _];
    by eexists _, _.
Qed.

Lemma api_generate_cases client_ip t env s :
  let kept := within 60 t (ledger s client_ip) in
  ((5 ≤ length kept)%nat ∧
   api_generate client_ip t env s =
     (Val (too_many_requests 60),
      with_rate_limits (<[client_ip := kept]> (rate_limits s)) s)) ∨
  ((length kept < 5)%nat ∧
   ∃ r s',
     api_generate client_ip t env s = (Val r, s') ∧
     status_code r = 200 ∧
     rate_limits s' = <[client_ip := kept ++ [t]]> (rate_limits s)).
Proof.
  intros kept. unfold api_generate. rewrite rate_limit_unfold. cbv zeta.
  fold (ledger s client_ip). fold (within 60 t (ledger s client_ip)). fold kept.
  destruct (Nat.leb_spec 5 (length kept)) as [Hfull|Hroom].
  - left. by split.
  - right. split; [done|].
    destruct (generate_account_returns env
                (with_rate_limits (<[client_ip := kept ++ [t]]> (rate_limits s)) s))
      as [r [s' [Hrun [Hcode Hrl]]]].
    by exists r, s'.
Qed.

Lemma ledger_insert_eq ip ts rl s :
  ledger (with_rate_limits (<[ip := ts]> rl) s) ip = ts.
Proof. unfold ledger. cbn [rate_limits with_rate_limits]. by rewrite lookup_insert_eq. Qed.





(** After the window has passed the same client is admitted again. *)
Example generate_admitted_after_window :
  let before := serve_all false (five_calls "198.51.100.7") initial_store in
  status_code (fst (serve false (PostGenerate "198.51.100.7" 64 third_time_lucky) before))
  = 200.
Proof. vm_compute. reflexivity. Qed.

(** ** The export *)

Lemma has_char_app c s1 s2 : has_char c (s1 +:+ s2) = has_char c s1 || has_char c s2.
Proof.
  induction s1 as [|c' s1 IH]; [done|]. simpl. by rewrite IH, orb_assoc.
Qed.

Lemma split_lines_single text : single_line text = true → split_lines text = [text].
Proof.
  unfold single_line. induction text as [|c text IH]; [done|].
  cbn [has_char split_lines].
  destruct (Ascii.eqb newline_char c); [done|]. cbn [orb]. intros H. by rewrite IH.
Qed.

Lemma split_lines_first line rest :
  single_line line = true →
  split_lines (line +:+ newline +:+ rest) = line :: split_lines rest.
Proof.
  unfold single_line. induction line as [|c line IH]; [done|].
  change (String c line +:+ newline +:+ rest) with (String c (line +:+ newline +:+ rest)).
  cbn [has_char split_lines].
  destruct (Ascii.eqb newline_char c); [done|]. cbn [orb]. intros H. by rewrite IH.
Qed.

Lemma split_lines_join lines :
  Forall (λ line, single_line line = true) lines →
  lines ≠ [] →
  split_lines (join newline lines) = lines.
Proof.
  induction lines as [|x lines IH]; [done|]. intros Hall _.
  apply Forall_cons in Hall as [Hx Hall].
  destruct lines as [|y lines]; [by apply split_lines_single|].
  change (join newline (x :: y :: lines)) with (x +:+ newline +:+ join newline (y :: lines)).
  rewrite split_lines_first by done. by rewrite IH.
Qed.

Lemma single_line_app s1 s2 :
  single_line (s1 +:+ s2) = single_line s1 && single_line s2.
Proof. unfold single_line. by rewrite has_char_app, negb_orb. Qed.

Lemma export_entry_single_lines a :
  renders_on_single_lines a → Forall (λ line, single_line line = true) (export_entry a).
Proof.
  intros [He [Hp [Ht Hg]]]. unfold export_entry.
  repeat (apply Forall_cons; split); [| | | | |by apply Forall_nil];
    rewrite ?single_line_app, ?He, ?Hp, ?Ht, ?Hg; reflexivity.
Qed.

Lemma export_entry_email_lines a rest :
  List.filter is_email_line (export_entry a ++ rest) =
  ("Email: " +:+ email a) :: List.filter is_email_line rest.
Proof. reflexivity. Qed.

Lemma export_content_email_lines accs :
  List.filter is_email_line (concat (map export_entry accs)) =
  map (λ a, "Email: " +:+ email a) accs.
Proof.
  induction accs as [|a accs IH]; [done|].
  cbn [map concat]. by rewrite export_entry_email_lines, IH.
Qed.

Lemma export_content_single_lines accs :
  Forall renders_on_single_lines accs →
  Forall (λ line, single_line line = true) (concat (map export_entry accs)).
Proof.
  induction 1 as [|a accs Ha _ IH]; [by apply Forall_nil|].
  cbn [map concat]. apply Forall_app. split; [by apply export_entry_single_lines|done].
Qed.

(** C7 as stated does not hold for every account sequence: the session
    token comes from the backend as it is, and one that holds a line
    break followed by "Email:" gives the export of a single success
    record two "Email:" lines. *)
Lemma export_two_email_lines_for_one_account :
  let s := snd (generate_account two_line_exchange initial_store) in
  ∃ text,
    fst (export_accounts s) =
      Val (jsonify (JObj [("content", JStr text); ("count", JInt 1)])) ∧
    length (List.filter is_success (accounts s)) = 1%nat ∧
    email_lines text = ["Email: test100000@example.com"; "Email: nobody@example.com"].
Proof. eexists. split; [|split]; vm_compute; reflexivity. Qed.

(** C7, amended.  For every account sequence the count field of the
    export is the number of success records.  When the email, the
    password, the session token and the gems of every success record
    render without a line break, the lines of the exported text that
    start with "Email:" are exactly the lines "Email: <email>" of the
    success records, one for each in order, and none comes from a failed
    record. *)
Theorem export_one_email_line_per_success (s : Store) :
  ∃ text,
    export_accounts s =
      (Val (jsonify (JObj
         [("content", JStr text);
          ("count", JInt (Z.of_nat (length (List.filter is_success (accounts s)))))])),
       s) ∧
    (Forall renders_on_single_lines (List.filter is_success (accounts s)) →
     email_lines text =
       map (λ a, "Email: " +:+ email a) (List.filter is_success (accounts s)) ∧
     length (email_lines text) = length (List.filter is_success (accounts s))).
Proof.
  eexists. split; [reflexivity|]. intros Hall. unfold email_lines.
  assert (Hlines :
    List.filter is_email_line
      (split_lines (join newline
         (concat (map export_entry (List.filter is_success (accounts s)))))) =
    map (λ a, "Email: " +:+ email a) (List.filter is_success (accounts s))).
  { destruct (List.filter is_success (accounts s)) as [|a accs] eqn:Hs; [reflexivity|].
    rewrite split_lines_join.
    - apply export_content_email_lines.
    - by apply export_content_single_lines.
    - discriminate. }
  split; [done|]. by rewrite Hlines, length_map.
Qed.

Lemma export_one_email_line_per_success_witness :
  let a := success_account (third_time_lucky 2)
             [("session_token", JStr "session"); ("gems", JInt 3)] in
  ∃ text,
    export_accounts (record_success a initial_store) =
      (Val (jsonify (JObj [("content", JStr text); ("count", JInt 1)])),
       record_success a initial_store) ∧
    email_lines text = ["Email: " +:+ email a] ∧
    length (email_lines text) = 1%nat.
Proof.
  intros a.
  destruct (export_one_email_line_per_success (record_success a initial_store))
    as [text [Hrun Hlines]].
  exists text. split; [exact Hrun|]. apply Hlines.
  apply Forall_cons. split; [|by apply Forall_nil].
  repeat split; vm_compute; reflexivity.
Defined.

(** * Further properties of the views *)

(** ** The rate limiter, store by store *)

Lemma ledger_initial client_ip : ledger initial_store client_ip = [].
Proof. unfold ledger. cbn [rate_limits initial_store]. by rewrite lookup_empty. Qed.

(** The ledger of [client_ip] after one request, in terms of the one
    before. *)
Lemma serve_ledger_cases debug req s client_ip :
  ledger (snd (serve debug req s)) client_ip = ledger s client_ip ∨
  ∃ now env,
    req = PostGenerate client_ip now env ∧
    (((5 ≤ length (within 60 now (ledger s client_ip)))%nat ∧
      fst (serve debug req s) = too_many_requests 60 ∧
      ledger (snd (serve debug req s)) client_ip = within 60 now (ledger s client_ip)) ∨
     ((length (within 60 now (ledger s client_ip)) < 5)%nat ∧
      status_code (fst (serve debug req s)) = 200 ∧
      ledger (snd (serve debug req s)) client_ip =
        within 60 now (ledger s client_ip) ++ [now])).
Proof.
  destruct req as [utcnow| |posted| |reply|ip now env| | ];
    try (left; reflexivity).
  - left. rewrite serve_snd. cbn [view]. by rewrite post_settings_store.
  - left. rewrite serve_snd. cbn [view]. by destruct (get_balance_store reply s).
  - unfold serve. cbn [view].
    destruct (decide (ip = client_ip)) as [->|Hother].
    + right. exists now, env. split; [done|].
      destruct (api_generate_cases client_ip now env s)
        as [[Hfull Hrun]|[Hroom [r [s' [Hrun [Hcode Hrl]]]]]]; rewrite Hrun; cbn [fst snd].
      * left. by rewrite ledger_insert_eq.
      * right. split; [done|]. split; [done|].
        unfold ledger at 1. by rewrite Hrl, lookup_insert_eq.
    + left.
      destruct (api_generate_cases ip now env s)
        as [[Hfull Hrun]|[Hroom [r [s' [Hrun [Hcode Hrl]]]]]]; rewrite Hrun; cbn [fst snd].
      * unfold ledger. cbn [rate_limits with_rate_limits]. by rewrite lookup_insert_ne.
      * unfold ledger. by rewrite Hrl, lookup_insert_ne.
Qed.

Lemma serve_ledgers_bounded debug req s :
  ledgers_bounded 5 s → ledgers_bounded 5 (snd (serve debug req s)).
Proof.
  intros Hb ip.
  destruct (serve_ledger_cases debug req s ip)
    as [->|[now [env [_ [[_ [_ ->]]|[Hroom [_ ->]]]]]]].
  - apply Hb.
  - etrans; [apply length_filter|apply Hb].
  - rewrite length_app. cbn [length]. lia.
Qed.

(** X1. No ledger ever holds more than five timestamps: the bound
    holds in the initial store, every request keeps it, and so it holds
    for every client after any sequence of requests. *)
Theorem ledger_never_exceeds_five :
  ledgers_bounded 5 initial_store ∧
  (∀ debug req s, ledgers_bounded 5 s → ledgers_bounded 5 (snd (serve debug req s))) ∧
  (∀ debug reqs client_ip,
     (length (ledger (serve_all debug reqs initial_store) client_ip) ≤ 5)%nat).
Proof.
  assert (Hinit : ledgers_bounded 5 initial_store).
  { intros ip. rewrite ledger_initial. cbn. lia. }
  split; [done|]. split; [apply serve_ledgers_bounded|].
  intros debug reqs. generalize initial_store Hinit.
  induction reqs as [|req reqs IH]; intros s Hs ip; [apply Hs|].
  cbn [serve_all]. apply IH. by apply serve_ledgers_bounded.
Qed.

Lemma ledgers_bounded_witness :
  ledgers_bounded 5
    (snd (serve false (PostGenerate "198.51.100.7" 5 (always email_exists_reply exchange_reply))
            initial_store)).
Proof.
  apply (proj1 (proj2 ledger_never_exceeds_five)).
  apply (proj1 ledger_never_exceeds_five).
Defined.

(** X2. A generate call is answered 429 exactly when at least five of
    the client's recorded timestamps lie inside the 60-second window
    that ends at the call.  Rejected, the call leaves the client the
    timestamps inside the window; admitted, it adds its own time after
    them and is answered 200. *)
Theorem generate_rejected_iff (debug : bool) (client_ip : string) (now : Q)
    (env : nat → AttemptEnv) (s : Store) :
  let r := serve debug (PostGenerate client_ip now env) s in
  let kept := within 60 now (ledger s client_ip) in
  (status_code (fst r) = 429 ↔ (5 ≤ length kept)%nat) ∧
  (status_code (fst r) = 200 ↔ (length kept < 5)%nat) ∧
  ledger (snd r) client_ip = (if decide (5 ≤ length kept)%nat then kept else kept ++ [now]).
Proof.
  intros r kept. subst r kept. unfold serve. cbn [view].
  destruct (api_generate_cases client_ip now env s)
    as [[Hfull Hrun]|[Hroom [r [s' [Hrun [Hcode Hrl]]]]]]; rewrite Hrun; cbn [fst snd].
  - rewrite ledger_insert_eq, decide_True by done. cbn [too_many_requests status_code].
    split; [done|]. split; [|done]. split; [discriminate|lia].
  - rewrite Hcode, decide_False by lia. split; [split; [discriminate|lia]|].
    split; [done|]. unfold ledger at 1. by rewrite Hrl, lookup_insert_eq.
Qed.

(** X3. Timestamps expire at exactly the window size: when every
    timestamp recorded for the client is 60 seconds old or older, the
    generate call is admitted and the client's ledger afterwards holds
    the time of this call alone. *)
Theorem generate_admitted_after_expiry (debug : bool) (client_ip : string) (now : Q)
    (env : nat → AttemptEnv) (s : Store) :
  Forall (λ t, (inject_Z 60 <= now - t)%Q) (ledger s client_ip) →
  let r := serve debug (PostGenerate client_ip now env) s in
  status_code (fst r) = 200 ∧ ledger (snd r) client_ip = [now].
Proof.
  intros Hold r. subst r.
  assert (Hnone : within 60 now (ledger s client_ip) = []).
  { unfold within. induction Hold as [|t ts Ht _ IH]; [done|].
    rewrite filter_cons_False; [done|]. intros Hin. lra. }
  unfold serve. cbn [view].
  destruct (api_generate_cases client_ip now env s)
    as [[Hfull Hrun]|[Hroom [r [s' [Hrun [Hcode Hrl]]]]]]; rewrite Hrun; cbn [fst snd].
  - rewrite Hnone in Hfull. cbn in Hfull. lia.
  - split; [done|]. unfold ledger at 1. by rewrite Hrl, lookup_insert_eq, Hnone.
Qed.

Lemma generate_admitted_after_expiry_witness :
  let r := serve false (PostGenerate "198.51.100.7" 60 third_time_lucky)
             (with_ledger "198.51.100.7" [0; 0; 0; 0; 0]%Q) in
  status_code (fst r) = 200 ∧ ledger (snd r) "198.51.100.7" = [60%Q].
Proof.
  apply (generate_admitted_after_expiry false "198.51.100.7" 60 third_time_lucky).
  assert (E : ledger (with_ledger "198.51.100.7" [0; 0; 0; 0; 0]%Q) "198.51.100.7"
              = [0; 0; 0; 0; 0]%Q) by (vm_compute; reflexivity).
  rewrite E. repeat (apply Forall_cons; split; [by vm_compute|]). by apply Forall_nil.
Defined.

(** One second earlier the same call is rejected. *)
Example generate_rejected_before_expiry :
  status_code (fst (serve false (PostGenerate "198.51.100.7" 59 third_time_lucky)
                      (with_ledger "198.51.100.7" [0; 0; 0; 0; 0]%Q))) = 429.
Proof. vm_compute. reflexivity. Qed.

(** X4. Clients are limited one by one: a request changes the ledger
    of no client but the one that makes a generate call, and a request
    that is not a generate call changes no ledger at all. *)
Theorem ledgers_are_per_client (debug : bool) (req : Request) (s : Store)
    (client_ip : string) :
  generate_time client_ip req = [] →
  rate_limits (snd (serve debug req s)) !! client_ip = rate_limits s !! client_ip.
Proof.
  intros Hnot. rewrite serve_snd.
  destruct req as [utcnow| |posted| |reply|ip now env| | ]; try reflexivity.
  - cbn [view]. by rewrite post_settings_store.
  - cbn [view]. by destruct (get_balance_store reply s).
  - cbn [generate_time] in Hnot.
    destruct (decide (ip = client_ip)) as [->|Hother].
    { by rewrite bool_decide_eq_true_2 in Hnot. }
    cbn [view].
    destruct (api_generate_cases ip now env s)
      as [[Hfull Hrun]|[Hroom [r [s' [Hrun [Hcode Hrl]]]]]]; rewrite Hrun; cbn [fst snd].
    + cbn [rate_limits with_rate_limits]. by rewrite lookup_insert_ne.
    + by rewrite Hrl, lookup_insert_ne.
Qed.

Lemma ledgers_are_per_client_witness :
  rate_limits (snd (serve false (PostGenerate "198.51.100.7" 3 third_time_lucky)
                      (with_ledger "203.0.113.9" [0; 1; 2; 2; 2]%Q))) !! "203.0.113.9"
  = rate_limits (with_ledger "203.0.113.9" [0; 1; 2; 2; 2]%Q) !! "203.0.113.9".
Proof.
  apply (ledgers_are_per_client false (PostGenerate "198.51.100.7" 3 third_time_lucky)).
  reflexivity.
Defined.

(** ** Settings *)

Lemma post_settings_run posted s :
  (settings_post_raises posted = true ∧ ∃ e, post_settings posted s = (Raise e, s)) ∨
  (settings_post_raises posted = false ∧
   post_settings posted s =
     (Val (jsonify (JObj [("success", JBool true);
                          ("settings", settings_json (merge_posted posted (settings s)))])),
      with_settings (merge_posted posted (settings s)) s)).
Proof.
  assert (Hempty : post_settings (JObj []) s =
            (Val (jsonify (JObj [("success", JBool true);
                                 ("settings", settings_json (settings s))])),
             with_settings (settings s) s)).
  { rewrite post_settings_dict. by destruct s as [a [t l g c] rl o]. }
  assert (Hid : ∀ v, (∀ d, v ≠ JObj d) → merge_posted v (settings s) = settings s).
  { intros v Hv. destruct s as [a [t l g c] rl o].
    destruct v; try reflexivity. by destruct (Hv fields). }
  destruct posted as [ | b | n | str | l | d ].
  - right. split; [done|]. rewrite post_settings_falsy, Hid by done. exact Hempty.
  - destruct b.
    + left. split; [done|]. by eexists.
    + right. split; [done|]. rewrite post_settings_falsy, Hid by done. exact Hempty.
  - cbn [settings_post_raises]. destruct (n =? 0) eqn:Hn.
    + right. split; [done|]. rewrite post_settings_falsy, Hid by (cbn; by rewrite ?Hn).
      exact Hempty.
    + left. split; [done|]. unfold post_settings, py_or. cbn [truthy]. rewrite Hn.
      by eexists.
  - cbn [settings_post_raises]. destruct (String.eqb str "") eqn:Hstr.
    + apply String.eqb_eq in Hstr as ->. right. split; [done|].
      rewrite post_settings_falsy, Hid by done. exact Hempty.
    + unfold post_settings, py_or. cbn [truthy]. rewrite Hstr. cbn [negb py_in py_getitem].
      run.
      destruct (is_substring "main_session_token" str); [left; split; [done|by eexists]|].
      destruct (is_substring "local_id" str); [left; split; [done|by eexists]|].
      right. split; [done|]. rewrite Hid by done. by rewrite with_settings_same.
  - cbn [settings_post_raises]. destruct l as [|x l].
    + right. split; [done|]. rewrite post_settings_falsy, Hid by done. exact Hempty.
    + unfold post_settings, py_or. cbn [truthy py_in py_getitem]. run.
      destruct (existsb (λ x0, py_eq x0 (JStr "main_session_token")) (x :: l));
        [left; split; [done|by eexists]|].
      destruct (existsb (λ x0, py_eq x0 (JStr "local_id")) (x :: l));
        [left; split; [done|by eexists]|].
      right. split; [done|]. rewrite Hid by done. by rewrite with_settings_same.
  - right. split; [done|]. apply post_settings_dict.
Qed.

(** X5. A settings POST is answered 500 exactly on the bodies of
    [settings_post_raises]: a true number or boolean, or a text or a
    list in which [in] finds one of the two keys.  The store is then as
    before and the message of the exception shows in the answer only in
    debug mode; started by [__main__] with FLASK_ENV=production the
    answer says "An unexpected error occurred".  On every other body the
    answer is 200 with the merged settings. *)
Theorem post_settings_status (debug : bool) (posted : json) (s : Store) :
  let r := serve debug (PostSettings posted) s in
  (settings_post_raises posted = true →
   snd r = s ∧
   ∃ e, fst r =
     {| status_code := 500;
        body := JObj [("error", JStr "Internal server error");
                      ("message", JStr (if debug then exn_str e
                                        else "An unexpected error occurred"))] |}) ∧
  (settings_post_raises posted = false →
   fst r = jsonify (JObj [("success", JBool true);
                          ("settings", settings_json (merge_posted posted (settings s)))])) ∧
  (∀ flask_env, main_debug flask_env = false ↔ flask_env = Some "production").
Proof.
  intros r. subst r. unfold serve. cbn [view].
  assert (Hmain : ∀ flask_env, main_debug flask_env = false ↔ flask_env = Some "production").
  { intros [v|]; unfold main_debug, is_production; [|done].
    rewrite negb_false_iff, String.eqb_eq. split; [by intros ->|by intros [= ->]]. }
  destruct (post_settings_run posted s) as [[Hr [e Hrun]]|[Hr Hrun]]; rewrite Hrun, Hr.
  - split; [|split; [discriminate|exact Hmain]]. intros _. split; [done|]. by exists e.
  - split; [discriminate|]. split; [done|exact Hmain].
Qed.

Lemma post_settings_status_witness :
  let r := serve (main_debug (Some "production"))
             (PostSettings (JStr "my local_id is 7")) (configured "m" (JInt 5)) in
  (snd r = configured "m" (JInt 5) ∧
   fst r =
     {| status_code := 500;
        body := JObj [("error", JStr "Internal server error");
                      ("message", JStr "An unexpected error occurred")] |}) ∧
  fst (serve false (PostSettings (JArr [JStr "token"])) initial_store) =
    jsonify (JObj [("success", JBool true); ("settings", settings_json initial_settings)]).
Proof.
  split.
  - destruct (proj1 (post_settings_status (main_debug (Some "production"))
                       (JStr "my local_id is 7") (configured "m" (JInt 5))) eq_refl)
      as [Hstore [e Hanswer]].
    split; [exact Hstore|exact Hanswer].
  - apply (proj1 (proj2 (post_settings_status false (JArr [JStr "token"]) initial_store))).
    reflexivity.
Defined.

Lemma merge_posted_twice posted st :
  merge_posted posted (merge_posted posted st) = merge_posted posted st.
Proof.
  unfold merge_posted, posted_value. cbn [main_session_token local_id total_gems generation_count].
  destruct posted as [ | b | n | str | l | d ]; try reflexivity.
  destruct (dict_lookup "main_session_token" d), (dict_lookup "local_id" d); reflexivity.
Qed.

(** X6. What a settings POST stores is what a settings GET reads back:
    after the POST of a dict, the GET answers the posted value under each
    of the two keys the dict has and the earlier value under the other.
    Posting the same body again changes nothing more. *)
Theorem post_settings_read_back (debug : bool) (posted : json) (s : Store) :
  let s1 := snd (serve debug (PostSettings posted) s) in
  fst (serve debug GetSettings s1) =
    jsonify (JObj
      [("main_session_token",
        posted_value "main_session_token" posted (main_session_token (settings s)));
       ("local_id", posted_value "local_id" posted (local_id (settings s)));
       ("total_gems", total_gems (settings s));
       ("generation_count", JInt (generation_count (settings s)))]) ∧
  snd (serve debug GetSettings s1) = s1 ∧
  snd (serve debug (PostSettings posted) s1) = s1.
Proof.
  intros s1. subst s1. rewrite !serve_snd. cbn [view]. rewrite !post_settings_store.
  split; [reflexivity|]. split; [reflexivity|].
  cbn [settings with_settings]. rewrite merge_posted_twice. reflexivity.
Qed.

Example post_then_get_settings :
  fst (serve false GetSettings
         (snd (serve false (PostSettings (JObj [("local_id", JStr "uid-1")]))
                 (configured "m" (JInt 5)))))
  = jsonify (JObj [("main_session_token", JStr "m"); ("local_id", JStr "uid-1");
                   ("total_gems", JInt 5); ("generation_count", JInt 0)]).
Proof. reflexivity. Qed.

(** ** The balance poll, further *)

(** With a token configured the poll makes one request, which carries
    the token, and stores at most a new balance. *)
Lemma get_balance_shape reply s :
  truthy (main_session_token (settings s)) = true →
  snd (get_balance reply s) = sent (InitBalance (main_session_token (settings s))) s ∨
  ∃ g, snd (get_balance reply s) =
         with_settings (set_total_gems g (settings s))
           (sent (InitBalance (main_session_token (settings s))) s).
Proof.
  intros Ht. unfold get_balance. run. rewrite Ht. cbn [negb].
  destruct reply as [[m|m]|data]; try (by left).
  destruct data as [ | b | n | str | l | fields ]; try (by left).
  cbn [py_get].
  destruct (py_eq (dict_get "code" fields JNull) (JInt 1)); [|by left].
  destruct (truthy (dict_get "data" fields JNull)); [|by left].
  destruct (py_getitem (JObj fields) "data") as [d|[m|m]]; try (by left).
  destruct (py_get d "gems" (JInt 0)) as [g|[m|m]]; try (by left).
  cbn [settings with_outbound with_settings]. right. exists g.
  destruct (py_gt g (total_gems (settings s))) as [[|]|[m|m]]; try reflexivity.
  destruct (py_sub g (total_gems (settings s))) as [diff|[m|m]]; reflexivity.
Qed.

(** X7. A balance poll changes nothing but [total_gems]: accounts,
    [generation_count], the token, [local_id] and the ledgers are as
    before.  It makes no request without a configured token and exactly
    one, carrying the token, with one. *)
Theorem get_balance_frame (reply : Reply) (s : Store) :
  let s' := snd (get_balance reply s) in
  accounts s' = accounts s ∧
  rate_limits s' = rate_limits s ∧
  generation_count (settings s') = generation_count (settings s) ∧
  main_session_token (settings s') = main_session_token (settings s) ∧
  local_id (settings s') = local_id (settings s) ∧
  outbound s' =
    (if truthy (main_session_token (settings s))
     then outbound s ++ [InitBalance (main_session_token (settings s))]
     else outbound s).
Proof.
  intros s'. subst s'. destruct (truthy (main_session_token (settings s))) eqn:Ht.
  - destruct (get_balance_shape reply s Ht) as [->|[g ->]]; by repeat split.
  - rewrite get_balance_no_token by done. by repeat split.
Qed.

(** X8. Whatever balance is stored, a success envelope makes the poll
    store the [gems] of its data, 0 when the data has no such key; this
    happens before the comparison with the old balance, so also when the
    answer is an error annotation. *)
Theorem get_balance_stores_received (s : Store) (data : json) d :
  truthy (main_session_token (settings s)) = true →
  success_envelope data = Some d →
  total_gems (settings (snd (get_balance (Replied data) s))) = dict_get "gems" d (JInt 0).
Proof.
  intros Ht Henv. unfold get_balance. run. rewrite Ht. cbn [negb].
  destruct data as [ | b | n | str | l | fields ]; try discriminate Henv.
  unfold success_envelope in Henv. cbn [py_get].
  destruct (py_eq (dict_get "code" fields JNull) (JInt 1)); [|discriminate Henv].
  cbn [py_getitem]. unfold dict_get at 1.
  destruct (dict_lookup "data" fields) as [[ | b | n | str | l | [|x d'] ]|];
    try discriminate Henv.
  injection Henv as <-. cbn [truthy py_get settings with_outbound with_settings].
  destruct (py_gt (dict_get "gems" (x :: d') (JInt 0)) (total_gems (settings s)))
    as [[|]|[m|m]]; try reflexivity.
  destruct (py_sub (dict_get "gems" (x :: d') (JInt 0)) (total_gems (settings s)))
    as [diff|[m|m]]; reflexivity.
Qed.

Lemma get_balance_stores_received_witness :
  total_gems (settings (snd (get_balance (Replied (envelope [("user", JStr "u")]))
                               (configured "m" (JStr "unknown"))))) = JInt 0.
Proof.
  exact (get_balance_stores_received (configured "m" (JStr "unknown"))
           (envelope [("user", JStr "u")]) [("user", JStr "u")] eq_refl eq_refl).
Defined.

(** X9. Polling again with the same integer balance reports no
    increase: the second answer has the flag false and the difference 0,
    and the stored balance stays. *)
Theorem get_balance_twice (s : Store) (data : json) d (g old : Z) :
  truthy (main_session_token (settings s)) = true →
  total_gems (settings s) = JInt old →
  success_envelope data = Some d →
  dict_get "gems" d (JInt 0) = JInt g →
  let s1 := snd (get_balance (Replied data) s) in
  let r := get_balance (Replied data) s1 in
  fst r = Val (jsonify (JObj [("gems", JInt g); ("increased", JBool false);
                              ("diff", JInt 0)])) ∧
  total_gems (settings (snd r)) = JInt g.
Proof.
  intros Ht Hold Henv Hg s1 r. subst r s1.
  rewrite (get_balance_envelope s data d g old Ht Hold Henv Hg). cbn [snd].
  rewrite (get_balance_envelope _ data d g g) by done.
  rewrite bool_decide_eq_false_2 by lia. by split.
Qed.

Lemma get_balance_twice_witness :
  let s1 := snd (get_balance (Replied (envelope [("session_token", JStr "session"); ("gems", JInt 3)])) (configured "m" (JInt 1))) in
  let r := get_balance (Replied (envelope [("session_token", JStr "session"); ("gems", JInt 3)])) s1 in
  fst r = Val (jsonify (JObj [("gems", JInt 3); ("increased", JBool false);
                              ("diff", JInt 0)])) ∧
  total_gems (settings (snd r)) = JInt 3.
Proof.
  exact (get_balance_twice (configured "m" (JInt 1))
           (envelope [("session_token", JStr "session"); ("gems", JInt 3)])
           [("session_token", JStr "session"); ("gems", JInt 3)] 3 1
           eq_refl eq_refl eq_refl eq_refl).
Defined.

(** X10. With a token configured, the error annotation of a poll tells
    what failed: "Request timed out" for a timeout, the text of the
    exception for any other failure of the request, and "Invalid
    response" for a dict body that [refuses]: its [code] is not 1, or its
    [data] is missing or false, an empty object included.  Each time the
    answer carries the stored balance. *)
Theorem get_balance_error_annotation (reply : Reply) (s : Store) :
  truthy (main_session_token (settings s)) = true →
  match reply with
  | Raised (Timeout _) => fst (get_balance reply s) = Val (balance_error s "Request timed out")
  | Raised (Error msg) => fst (get_balance reply s) = Val (balance_error s msg)
  | Replied (JObj fields) =>
      refuses fields = true →
      fst (get_balance reply s) = Val (balance_error s "Invalid response")
  | Replied _ => True
  end.
Proof.
  intros Ht. destruct reply as [[m|m]|data].
  - unfold get_balance. run. by rewrite Ht.
  - unfold get_balance. run. by rewrite Ht.
  - destruct data as [ | b | n | str | l | fields ]; try done.
    unfold refuses. intros Href. unfold get_balance. run. rewrite Ht. cbn [negb py_get].
    destruct (py_eq (dict_get "code" fields JNull) (JInt 1)); [|done].
    cbn [negb orb] in Href. apply negb_true_iff in Href. by rewrite Href.
Qed.

Lemma get_balance_error_annotation_witness :
  fst (get_balance (Replied (JObj [("code", JInt 1); ("data", JObj [])]))
         (configured "m" (JInt 5)))
  = Val (balance_error (configured "m" (JInt 5)) "Invalid response").
Proof.
  exact (get_balance_error_annotation
           (Replied (JObj [("code", JInt 1); ("data", JObj [])]))
           (configured "m" (JInt 5)) eq_refl eq_refl).
Defined.

(** X11. The token a settings POST stores is the one the next balance
    poll uses: after the POST of a dict with [main_session_token] [v],
    the poll answers "No session token configured" and makes no request
    when [v] is false (an empty text, null, 0), and makes one request
    carrying [v] otherwise. *)
Theorem post_token_then_poll (debug : bool) d (v : json) (reply : Reply) (s : Store) :
  dict_lookup "main_session_token" d = Some v →
  let s1 := snd (serve debug (PostSettings (JObj d)) s) in
  let r := get_balance reply s1 in
  (truthy v = false →
   r = (Val (jsonify (JObj [("error", JStr "No session token configured");
                            ("gems", JInt 0)])), s1)) ∧
  (truthy v = true → outbound (snd r) = outbound s ++ [InitBalance v]).
Proof.
  intros Hv s1 r.
  assert (Htok : main_session_token (settings s1) = v ∧ outbound s1 = outbound s).
  { subst s1. rewrite serve_snd. cbn [view]. rewrite post_settings_store.
    cbn [settings with_settings merge_posted main_session_token posted_value outbound].
    by rewrite Hv. }
  destruct Htok as [Htok Hout]. subst r. split; intros Ht.
  - apply get_balance_no_token. by rewrite Htok.
  - destruct (get_balance_shape reply s1) as [->|[g ->]]; [by rewrite Htok| |];
      cbn [outbound sent with_outbound with_settings]; by rewrite Htok, Hout.
Qed.

Lemma post_token_then_poll_witness :
  let s1 := snd (serve false (PostSettings (JObj [("main_session_token", JStr "")]))
                   (configured "m" (JInt 5))) in
  get_balance exchange_reply s1 =
    (Val (jsonify (JObj [("error", JStr "No session token configured");
                         ("gems", JInt 0)])), s1).
Proof.
  apply (proj1 (post_token_then_poll false [("main_session_token", JStr "")] (JStr "")
                  exchange_reply (configured "m" (JInt 5)) eq_refl)).
  reflexivity.
Defined.

(** ** Iterations that fail, and what the loop makes of them *)

(** The requests of an iteration that gets a credential [token]. *)
Lemma attempt_try_credential e s token :
  signup_credential (signup_reply e) = Some token →
  attempt_try the_password e (email_of e) s =
    (init_data ← requests_post
                   (InitData token (continuation_code (settings s) (signup_reply e)))
                   (init_reply e);
     code ← lift (py_get init_data "code" JNull);
     cond ← (if py_eq code (JInt 1) then lift (py_get init_data "data" JNull)
             else mret (JBool false));
     if truthy cond then
       d ← lift (py_getitem init_data "data");
       session_token ← lift (py_get d "session_token" (JStr ""));
       d ← lift (py_getitem init_data "data");
       gems ← lift (py_get d "gems" (JInt 0));
       let new_account :=
         {| email := email_of e; password := the_password;
            sessionToken := Some session_token; gems := Some gems;
            timestamp := clock e; status := success; error := None |} in
       modify (λ s, with_accounts (new_account :: accounts s) s);;
       modify (λ s, with_settings
         (set_generation_count (generation_count (settings s) + 1) (settings s)) s);;
       mret (Some (jsonify (JObj [("success", JBool true);
                                  ("account", account_json new_account)])))
     else raise (Error "Failed to initialize account"))
      (sent (SignUp (email_of e) the_password) s).
Proof.
  intros Hc. unfold attempt_try, continuation_code, py_or. run.
  unfold signup_credential in Hc.
  destruct (signup_reply e) as [ex|[ | b | n | str | l | fields ]]; try discriminate Hc.
  cbn [py_get].
  destruct (dict_get "error" fields (JObj [])) as [ | b | n | str | l | err ];
    try discriminate Hc.
  cbn [py_get].
  destruct (py_eq (dict_get "message" err JNull) (JStr "EMAIL_EXISTS"));
    [discriminate Hc|].
  destruct (truthy (dict_get "idToken" fields JNull)) eqn:Hid; [|discriminate Hc].
  injection Hc as <-.
  cbn [py_getitem]. unfold dict_get in Hid |- * at 2.
  destruct (dict_lookup "idToken" fields) as [tok|]; [|discriminate Hid].
  cbn [settings sent with_outbound].
  destruct (truthy (local_id (settings s))); reflexivity.
Qed.

Lemma attempt_once_passes attempt e s :
  attempt_passes e →
  ∃ calls, signups calls = [email_of e] ∧
    attempt_once the_password attempt e s = (Val None, sent_all calls s).
Proof.
  intros [Hexists|[[m Hs]|[[token Hc] [m Hi]]]].
  - exists [SignUp (email_of e) the_password]. split; [done|].
    by apply attempt_once_email_exists.
  - exists [SignUp (email_of e) the_password]. split; [done|].
    unfold attempt_once, try_except, attempt_try. run. by rewrite Hs.
  - exists [SignUp (email_of e) the_password;
            InitData token (continuation_code (settings s) (signup_reply e))].
    split; [done|].
    unfold attempt_once, try_except.
    change (generate_random_email (random_num e)) with (email_of e).
    rewrite (attempt_try_credential e s token Hc). run. rewrite Hi.
    by rewrite <- sent_two.
Qed.

Lemma attempt_once_fails attempt e s msg :
  attempt_fails_with e msg →
  ∃ calls, signups calls = [email_of e] ∧
    attempt_once the_password attempt e s = after_failure attempt e msg (sent_all calls s).
Proof.
  unfold after_failure.
  intros [Hs|[Hrej|[[token Hc] [Hi|[fields [Hi [Href ->]]]]]]].
  - exists [SignUp (email_of e) the_password]. split; [done|].
    unfold attempt_once, try_except, attempt_try. run. rewrite Hs.
    change (generate_random_email (random_num e)) with (email_of e).
    by destruct (attempt =? max_attempts - 1)%nat.
  - exists [SignUp (email_of e) the_password]. split; [done|].
    unfold attempt_once, try_except, attempt_try. run.
    change (generate_random_email (random_num e)) with (email_of e).
    unfold rejection_text in Hrej.
    destruct (signup_reply e) as [ex|[ | b | n | str | l | fields ]]; try discriminate Hrej.
    cbn [py_get].
    destruct (dict_get "error" fields (JObj [])) as [ | b | n | str | l | err ];
      try discriminate Hrej.
    cbn [py_get].
    destruct (py_eq (dict_get "message" err JNull) (JStr "EMAIL_EXISTS"));
      [discriminate Hrej|].
    destruct (truthy (dict_get "idToken" fields JNull)); [discriminate Hrej|].
    injection Hrej as <-.
    by destruct (attempt =? max_attempts - 1)%nat.
  - exists [SignUp (email_of e) the_password;
            InitData token (continuation_code (settings s) (signup_reply e))].
    split; [done|].
    unfold attempt_once, try_except.
    change (generate_random_email (random_num e)) with (email_of e).
    rewrite (attempt_try_credential e s token Hc). run. rewrite Hi, <- sent_two.
    by destruct (attempt =? max_attempts - 1)%nat.
  - exists [SignUp (email_of e) the_password;
            InitData token (continuation_code (settings s) (signup_reply e))].
    split; [done|].
    unfold attempt_once, try_except.
    change (generate_random_email (random_num e)) with (email_of e).
    rewrite (attempt_try_credential e s token Hc). run. rewrite Hi, <- sent_two.
    cbn [py_get]. unfold refuses in Href.
    destruct (py_eq (dict_get "code" fields JNull) (JInt 1)).
    + cbn [negb orb] in Href. apply negb_true_iff in Href. rewrite Href.
      by destruct (attempt =? max_attempts - 1)%nat.
    + by destruct (attempt =? max_attempts - 1)%nat.
Qed.

Lemma attempt_once_success_calls attempt e s token d :
  signup_credential (signup_reply e) = Some token →
  exchange_data (init_reply e) = Some d →
  attempt_once the_password attempt e s =
    (Val (Some (success_response (success_account e d))),
     record_success (success_account e d)
       (sent_all [SignUp (email_of e) the_password;
                  InitData token (continuation_code (settings s) (signup_reply e))] s)).
Proof.
  intros Hc Hd. unfold attempt_once, try_except.
  change (generate_random_email (random_num e)) with (email_of e).
  rewrite (attempt_try_credential e s token Hc). run. rewrite <- sent_two.
  unfold exchange_data, success_envelope in Hd.
  destruct (init_reply e) as [ex|[ | b | n | str | l | ifields ]]; try discriminate Hd.
  cbn [py_get].
  destruct (py_eq (dict_get "code" ifields JNull) (JInt 1)); [|discriminate Hd].
  cbn [py_getitem]. unfold dict_get at 1.
  destruct (dict_lookup "data" ifields) as [[ | b | n | str | l | [|x d'] ]|];
    try discriminate Hd.
  injection Hd as <-. reflexivity.
Qed.

Lemma seq_ten : seq 0 max_attempts = seq 0 9 ++ [9%nat].
Proof. reflexivity. Qed.

Lemma first_nine_skip env s :
  (∀ i, (i < 9)%nat → attempt_succeeds (env i) = false) →
  ∃ calls, signups calls = emails env (seq 0 9) ∧
    generate_account env s =
    for_attempts the_password env [9%nat] (sent_all calls s).
Proof.
  intros Hno. unfold generate_account. change "testuad12334" with the_password.
  rewrite seq_ten. apply for_attempts_skip.
  intros i Hi. apply elem_of_seq in Hi. split; [apply Hno; lia|unfold max_attempts; lia].
Qed.

(** X12. Failures before the last iteration leave no trace: when no
    iteration succeeds and the tenth ends by a collision or a timeout,
    [generate_account] returns "Max attempts reached" and neither
    accounts nor settings have changed, whatever exceptions the first
    nine iterations raised. *)
Theorem generate_account_gives_up (env : nat → AttemptEnv) (s : Store) :
  (∀ i, (i < 9)%nat → attempt_succeeds (env i) = false) →
  attempt_passes (env 9%nat) →
  let r := generate_account env s in
  fst r = Val (jsonify (JObj [("success", JBool false);
                              ("error", JStr "Max attempts reached")])) ∧
  accounts (snd r) = accounts s ∧
  settings (snd r) = settings s ∧
  ∃ calls, outbound (snd r) = outbound s ++ calls ∧
           signups calls = emails env (seq 0 max_attempts).
Proof.
  intros Hno Hpass r. subst r.
  destruct (first_nine_skip env s Hno) as [calls [Hcalls ->]].
  destruct (attempt_once_passes 9 (env 9%nat) (sent_all calls s) Hpass)
    as [calls' [Hcalls' Hrun]].
  cbn [for_attempts]. unfold mbind, M_bind. rewrite Hrun. unfold mret, M_ret.
  rewrite sent_all_app. cbn [fst snd].
  split; [done|]. split; [done|]. split; [done|].
  exists (calls ++ calls'). split; [done|].
  rewrite signups_app, Hcalls, Hcalls'. reflexivity.
Qed.

Lemma generate_account_gives_up_witness :
  let r := generate_account refused_then_timeout initial_store in
  fst r = Val (jsonify (JObj [("success", JBool false);
                              ("error", JStr "Max attempts reached")])) ∧
  accounts (snd r) = [] ∧
  settings (snd r) = initial_settings ∧
  ∃ calls, outbound (snd r) = [] ++ calls ∧
           signups calls = emails refused_then_timeout (seq 0 max_attempts).
Proof.
  apply (generate_account_gives_up refused_then_timeout initial_store).
  - intros i Hi. unfold refused_then_timeout.
    destruct (i <? 9)%nat; reflexivity.
  - right; left. by exists "Read timed out.".
Defined.

(** X13. When no iteration succeeds and the tenth raises an exception
    other than a timeout, [generate_account] returns a failure with the
    text of that exception and puts at the head of accounts a failed
    record with the address of the tenth iteration and the same text.
    The text is [str] of the provider's [error.message] for a rejected
    signup ("Signup failed" without one) and "Failed to initialize
    account" for an exchange answered without [code] 1 or with missing,
    null or empty [data].  Settings are as before. *)
Theorem generate_account_reports_last_failure (env : nat → AttemptEnv) (s : Store)
    (msg : string) :
  (∀ i, (i < 9)%nat → attempt_succeeds (env i) = false) →
  attempt_fails_with (env 9%nat) msg →
  let r := generate_account env s in
  let rec := {| email := generate_random_email (random_num (env 9%nat));
                password := "testuad12334";
                sessionToken := None; gems := None;
                timestamp := clock (env 9%nat); status := failed; error := Some msg |} in
  fst r = Val (jsonify (JObj [("success", JBool false); ("error", JStr msg);
                              ("account", account_json rec)])) ∧
  accounts (snd r) = rec :: accounts s ∧
  settings (snd r) = settings s.
Proof.
  intros Hno Hfail r rec. subst r rec.
  destruct (first_nine_skip env s Hno) as [calls [Hcalls ->]].
  destruct (attempt_once_fails 9 (env 9%nat) (sent_all calls s) msg Hfail)
    as [calls' [Hcalls' Hrun]].
  cbn [for_attempts]. unfold mbind, M_bind. rewrite Hrun. by repeat split.
Qed.

Lemma generate_account_reports_last_failure_witness :
  let r := generate_account (always weak_password_reply exchange_reply) initial_store in
  let rec := {| email := "test100009@example.com"; password := "testuad12334";
                sessionToken := None; gems := None;
                timestamp := "12:00:00"; status := failed;
                error := Some "WEAK_PASSWORD" |} in
  fst r = Val (jsonify (JObj [("success", JBool false); ("error", JStr "WEAK_PASSWORD");
                              ("account", account_json rec)])) ∧
  accounts (snd r) = rec :: accounts initial_store ∧
  settings (snd r) = settings initial_store.
Proof.
  apply (generate_account_reports_last_failure (always weak_password_reply exchange_reply)
           initial_store "WEAK_PASSWORD").
  - intros i Hi. reflexivity.
  - right; left. reflexivity.
Defined.

(** The same generation with an exchange that answers code 1 and an
    empty data object. *)
Example empty_data_is_a_failure :
  let r := generate_account
             (always credential_reply (Replied (JObj [("code", JInt 1); ("data", JObj [])])))
             initial_store in
  map error (accounts (snd r)) = [Some "Failed to initialize account"] ∧
  generation_count (settings (snd r)) = 0.
Proof. vm_compute. by split. Qed.

(** X14. The exchange request of the iteration that succeeds is the
    last request of the generation.  It carries the [idToken] of the
    signup and, as continuation code, the configured [local_id] when
    that is true and the [localId] of the signup otherwise. *)
Theorem generate_account_exchange_request (env : nat → AttemptEnv) (s : Store)
    (n : nat) (token : json) :
  (n < max_attempts)%nat →
  (∀ i, (i < n)%nat → attempt_succeeds (env i) = false) →
  signup_credential (signup_reply (env n)) = Some token →
  is_Some (exchange_data (init_reply (env n))) →
  last (outbound (snd (generate_account env s))) =
    Some (InitData token (continuation_code (settings s) (signup_reply (env n)))).
Proof.
  intros Hn Hno Hc [d Hd].
  destruct (for_attempts_skip env (seq 0 n) (n :: seq (S n) (max_attempts - S n)) s)
    as [calls [Hcalls Hrun]].
  { intros i Hi. apply elem_of_seq in Hi. split; [apply Hno; lia|lia]. }
  unfold generate_account. change "testuad12334" with the_password.
  rewrite (seq_split_at n max_attempts) by lia. rewrite Hrun.
  cbn [for_attempts]. unfold mbind, M_bind.
  rewrite (attempt_once_success_calls n (env n) (sent_all calls s) token d Hc Hd).
  unfold mret, M_ret. cbn [snd record_success sent_all outbound with_outbound with_settings
                           with_accounts settings].
  change [SignUp (email_of (env n)) the_password;
          InitData token (continuation_code (settings s) (signup_reply (env n)))]
    with ([SignUp (email_of (env n)) the_password] ++
          [InitData token (continuation_code (settings s) (signup_reply (env n)))]).
  by rewrite !app_assoc, last_snoc.
Qed.

Lemma generate_account_exchange_request_witness :
  last (outbound (snd (generate_account third_time_lucky
                         (with_settings (set_local_id (JStr "friend") initial_settings)
                            initial_store))))
  = Some (InitData (JStr "id-token") (JStr "friend")).
Proof.
  apply (generate_account_exchange_request third_time_lucky
           (with_settings (set_local_id (JStr "friend") initial_settings) initial_store)
           2 (JStr "id-token")).
  - unfold max_attempts. lia.
  - intros i Hi. unfold third_time_lucky.
    destruct (Nat.ltb_spec i 2); [reflexivity|lia].
  - reflexivity.
  - by eexists.
Defined.

(** X15. A generation leaves the token, [local_id], [total_gems] and
    the ledgers alone.  It adds at most one record to accounts, at the
    head, and [generation_count] grows by one exactly when that record is
    a success. *)
Theorem generate_account_frame (env : nat → AttemptEnv) (s : Store) :
  let s' := snd (generate_account env s) in
  main_session_token (settings s') = main_session_token (settings s) ∧
  local_id (settings s') = local_id (settings s) ∧
  total_gems (settings s') = total_gems (settings s) ∧
  rate_limits s' = rate_limits s ∧
  ∃ new,
    accounts s' = new ++ accounts s ∧
    (length new ≤ 1)%nat ∧
    generation_count (settings s') =
      generation_count (settings s) + Z.of_nat (length (List.filter is_success new)).
Proof.
  intros s'. subst s'.
  destruct (generate_account_store env s)
    as [calls _ | before i after calls d _ _ _ _ | before i after calls msg _ _ _];
    cbn [snd].
  - repeat split; try done. exists []. cbn. repeat split; [lia|lia].
  - repeat split; try done. exists [success_account (env i) d]. cbn. by repeat split.
  - repeat split; try done. exists [failed_account (env i) msg]. cbn.
    repeat split; [lia|lia].
Qed.

Lemma string_to_list_app s1 s2 :
  list_ascii_of_string (s1 +:+ s2) = list_ascii_of_string s1 ++ list_ascii_of_string s2.
Proof. induction s1 as [|c s1 IH]; [done|]. simpl. by rewrite IH. Qed.

Lemma string_app_inv_tail s1 s2 t : s1 +:+ t = s2 +:+ t → s1 = s2.
Proof.
  intros H. apply (f_equal list_ascii_of_string) in H.
  rewrite !string_to_list_app in H. apply app_inv_tail in H.
  rewrite <- (string_of_list_ascii_of_string s1), <- (string_of_list_ascii_of_string s2).
  by rewrite H.
Qed.

(** X16. Different draws give different addresses: two candidate
    addresses are equal only when [random.randint] drew the same number,
    so a collision inside one generation needs a repeated draw. *)
Theorem generate_random_email_inj (n1 n2 : Z) :
  n1 ≠ n2 → generate_random_email n1 ≠ generate_random_email n2.
Proof.
  unfold generate_random_email. intros Hne H. apply Hne.
  apply (inj (String.app "test")) in H. apply string_app_inv_tail in H.
  by apply (inj pretty) in H.
Qed.

Lemma generate_random_email_inj_witness :
  generate_random_email 100000 ≠ generate_random_email 9999999.
Proof.
  apply (generate_random_email_inj 100000 9999999). discriminate.
Defined.

(** ** Reading the accounts: the list, the export, and [clear] *)

Lemma length_filter_failed (accs : list Account) :
  length (List.filter is_failed accs) =
  (length accs - length (List.filter is_success accs))%nat.
Proof.
  induction accs as [|a accs IH]; [done|].
  assert (Hle : (length (List.filter is_success accs) ≤ length accs)%nat).
  { clear IH. induction accs as [|b accs IH]; [done|]. cbn. destruct (is_success b); cbn; lia. }
  cbn [List.filter]. unfold is_failed at 1, is_success at 1.
  destruct (status a); cbn [length]; rewrite IH; lia.
Qed.

(** X17. The list of accounts answers every record, newest first, and
    three counters.  After any sequence of requests from the initial
    store, "total" equals "successful", and "failed" is the number of
    records minus "successful".  The store is not changed. *)
Theorem get_accounts_stats (debug : bool) (reqs : list Request) :
  let s := serve_all debug reqs initial_store in
  let n := length (List.filter is_success (accounts s)) in
  serve debug GetAccounts s =
    (jsonify (JObj
       [("accounts", JArr (map account_json (accounts s)));
        ("stats", JObj [("successful", JInt (Z.of_nat n));
                        ("failed", JInt (Z.of_nat (length (accounts s) - n)));
                        ("total", JInt (Z.of_nat n))])]),
     s).
Proof.
  intros s n. subst n.
  assert (Hcount : counts_successes s).
  { subst s. by apply serve_all_counts. }
  unfold serve. cbn [view]. unfold get_accounts. run.
  by rewrite length_filter_failed, Hcount.
Qed.

(** X18. After [clear] the list of accounts answers no record and
    three zero counters and the export answers an empty text and count
    0.  [clear] resets nothing else: the ledgers, [total_gems], the token
    and [local_id] are as before, so a client that was rate limited still
    is. *)
Theorem clear_then_read (debug : bool) (s : Store) :
  let s1 := snd (serve debug Clear s) in
  fst (serve debug GetAccounts s1) =
    jsonify (JObj [("accounts", JArr []);
                   ("stats", JObj [("successful", JInt 0); ("failed", JInt 0);
                                   ("total", JInt 0)])]) ∧
  fst (serve debug GetExport s1) = jsonify (JObj [("content", JStr ""); ("count", JInt 0)]) ∧
  rate_limits s1 = rate_limits s ∧
  total_gems (settings s1) = total_gems (settings s) ∧
  main_session_token (settings s1) = main_session_token (settings s) ∧
  local_id (settings s1) = local_id (settings s).
Proof. by repeat split. Qed.

Lemma string_app_nil_r s : s +:+ "" = s.
Proof.
  induction s as [|c s IH]; [done|].
  change (String c (s +:+ "") = String c s). by rewrite IH.
Qed.

Lemma string_app_assoc s1 s2 s3 : (s1 +:+ s2) +:+ s3 = s1 +:+ (s2 +:+ s3).
Proof.
  induction s1 as [|c s1 IH]; [done|].
  change (String c ((s1 +:+ s2) +:+ s3) = String c (s1 +:+ (s2 +:+ s3))). by rewrite IH.
Qed.

Lemma join_app sep l1 l2 :
  l1 ≠ [] → l2 ≠ [] → join sep (l1 ++ l2) = join sep l1 +:+ sep +:+ join sep l2.
Proof.
  intros H1 H2. induction l1 as [|x l1 IH]; [done|].
  destruct l1 as [|y l1].
  - destruct l2 as [|z l2]; [done|]. reflexivity.
  - change (join sep ((x :: y :: l1) ++ l2))
      with (x +:+ sep +:+ join sep ((y :: l1) ++ l2)).
    rewrite IH by done.
    change (join sep (x :: y :: l1)) with (x +:+ sep +:+ join sep (y :: l1)).
    by rewrite !string_app_assoc.
Qed.

Lemma export_accounts_run s :
  export_accounts s =
    (Val (export_response (export_content (accounts s))
            (length (List.filter is_success (accounts s)))), s).
Proof. reflexivity. Qed.

Lemma export_content_cons (a : Account) (accs : list Account) :
  export_content (a :: accs) =
    match status a with
    | failed => export_content accs
    | success =>
        join newline (export_entry a) +:+
        (if (length (List.filter is_success accs) =? 0)%nat then ""
         else newline +:+ export_content accs)
    end.
Proof.
  unfold export_content. cbn [List.filter]. unfold is_success at 1.
  destruct (status a); [|done].
  cbn [map concat].
  destruct (List.filter is_success accs) as [|b accs'] eqn:Hs.
  - cbn [map concat length Nat.eqb]. by rewrite app_nil_r, string_app_nil_r.
  - cbn [length Nat.eqb]. by rewrite join_app.
Qed.

Lemma export_response_inj text1 n1 text2 n2 :
  Val (export_response text1 n1) = Val (export_response text2 n2) →
  text1 = text2 ∧ n1 = n2.
Proof. intros [= -> H]. split; [done|lia]. Qed.

(** X19. What one more record does to the export.  A failed record at
    the head of accounts changes neither the text nor the count.  A
    success record puts its five lines (Email, Password, Session Token,
    Gems, ---) before the text there was, separated from it by a line
    break when there was any, and adds one to the count. *)
Theorem export_after_new_record (a : Account) (s : Store) (text : string) (n : nat) :
  fst (export_accounts s) = Val (export_response text n) →
  fst (export_accounts (with_accounts (a :: accounts s) s)) =
    Val (match status a with
         | failed => export_response text n
         | success =>
             export_response
               (join newline
                  ["Email: " +:+ email a;
                   "Password: " +:+ password a;
                   "Session Token: " +:+ py_str (default (JStr "N/A") (sessionToken a));
                   "Gems: " +:+ py_str (default (JInt 0) (gems a));
                   "---"]
                +:+ (if (n =? 0)%nat then "" else newline +:+ text))
               (S n)
         end).
Proof.
  rewrite !export_accounts_run. cbn [fst accounts with_accounts].
  intros [<- <-]%export_response_inj.
  rewrite export_content_cons. cbn [List.filter].
  assert (Hs : is_success a = match status a with success => true | failed => false end)
    by reflexivity.
  rewrite Hs. by destruct (status a).
Qed.

Lemma export_after_new_record_witness :
  fst (export_accounts
         (with_accounts
            (failed_account (refused 9) "Failed to initialize account" :: accounts initial_store)
            initial_store))
  = Val (export_response "" 0).
Proof.
  exact (export_after_new_record
           (failed_account (refused 9) "Failed to initialize account")
           initial_store "" 0 eq_refl).
Defined.

Lemma export_content_lines (accs : list Account) :
  Forall renders_on_single_lines (List.filter is_success accs) →
  List.filter is_success accs ≠ [] →
  split_lines (export_content accs) =
    concat (map export_entry (List.filter is_success accs)).
Proof.
  intros Hall Hsome. unfold export_content. apply split_lines_join.
  - by apply export_content_single_lines.
  - destruct (List.filter is_success accs) as [|a l]; [done|]. discriminate.
Qed.

(** X20. The exported text reads back line by line: when the rendered
    fields of the success records hold no line break and the count is
    not 0, splitting the text at line breaks gives the five lines of each
    success record, in the order of the accounts: five times the count
    lines in all. *)
Theorem export_reads_back (s : Store) (text : string) (n : nat) :
  fst (export_accounts s) = Val (export_response text n) →
  Forall renders_on_single_lines (List.filter is_success (accounts s)) →
  n ≠ 0%nat →
  split_lines text = concat (map export_entry (List.filter is_success (accounts s))) ∧
  length (split_lines text) = (5 * n)%nat.
Proof.
  rewrite export_accounts_run. cbn [fst].
  intros [<- <-]%export_response_inj Hall Hsome.
  assert (Hne : List.filter is_success (accounts s) ≠ []).
  { intros Hnil. by rewrite Hnil in Hsome. }
  rewrite export_content_lines by done. split; [done|].
  clear Hall Hsome Hne.
  induction (List.filter is_success (accounts s)) as [|a l IH]; [done|].
  cbn [map concat]. rewrite length_app, IH. cbn [export_entry length]. lia.
Qed.

Lemma export_reads_back_witness :
  split_lines (export_content one_of_each) =
    concat (map export_entry (List.filter is_success one_of_each)) ∧
  length (split_lines (export_content one_of_each)) = (5 * 1)%nat.
Proof.
  apply (export_reads_back (with_accounts one_of_each initial_store)
           (export_content one_of_each) 1).
  - reflexivity.
  - apply Forall_cons. split; [|by apply Forall_nil].
    repeat split; vm_compute; reflexivity.
  - discriminate.
Defined.

(** ** Status codes *)

Lemma get_balance_ok reply s :
  ∃ r s', get_balance reply s = (Val r, s') ∧ status_code r = 200.
Proof.
  unfold get_balance. run.
  destruct (negb (truthy (main_session_token (settings s)))); [by eexists _, _|].
  destruct reply as [[m|m]|data]; try (by eexists _, _).
  destruct data as [ | b | n | str | l | fields ]; try (by eexists _, _).
  cbn [py_get].
  destruct (py_eq (dict_get "code" fields JNull) (JInt 1)); [|by eexists _, _].
  destruct (truthy (dict_get "data" fields JNull)); [|by eexists _, _].
  destruct (py_getitem (JObj fields) "data") as [d|[m|m]]; try (by eexists _, _).
  destruct (py_get d "gems" (JInt 0)) as [g|[m|m]]; try (by eexists _, _).
  cbn [settings with_outbound with_settings].
  destruct (py_gt g (total_gems (settings s))) as [[|]|[m|m]]; try (by eexists _, _).
  destruct (py_sub g (total_gems (settings s))) as [diff|[m|m]]; by eexists _, _.
Qed.

(** X21. Every request is answered 200, 429 or 500.  Only a generate
    call can be answered 429, and only a settings POST on a body of
    [settings_post_raises] is answered 500: no other view lets an
    exception reach the error handler, whatever the two remote services
    do. *)
Theorem serve_status (debug : bool) (req : Request) (s : Store) :
  let code := status_code (fst (serve debug req s)) in
  (code = 200 ∨ code = 429 ∨ code = 500) ∧
  (code = 429 → ∃ client_ip now env, req = PostGenerate client_ip now env) ∧
  (code = 500 → ∃ posted, req = PostSettings posted ∧ settings_post_raises posted = true).
Proof.
  intros code. subst code. unfold serve.
  destruct req as [utcnow| |posted| |reply|ip now env| | ]; cbn [view];
    try (split; [by left|split; discriminate]).
  - destruct (post_settings_run posted s) as [[Hr [e Hrun]]|[Hr Hrun]]; rewrite Hrun.
    + split; [by right; right|]. split; [discriminate|]. intros _. by exists posted.
    + split; [by left|split; discriminate].
  - destruct (get_balance_ok reply s) as [r [s' [Hrun Hcode]]]. rewrite Hrun. cbn [fst].
    rewrite Hcode. split; [by left|split; discriminate].
  - destruct (api_generate_cases ip now env s)
      as [[Hfull Hrun]|[Hroom [r [s' [Hrun [Hcode Hrl]]]]]]; rewrite Hrun; cbn [fst].
    + split; [by right; left|]. split; [|discriminate]. intros _. by exists ip, now, env.
    + rewrite Hcode. split; [by left|split; discriminate].
Qed.

Lemma serve_status_witness :
  ∃ posted, PostSettings (JInt 7) = PostSettings posted ∧ settings_post_raises posted = true.
Proof.
  apply (proj2 (proj2 (serve_status false (PostSettings (JInt 7)) initial_store))).
  reflexivity.
Defined.

(** ** The first calls of a client, and a generation seen in the export *)

Lemma serve_all_ledger_length debug reqs s client_ip :
  (length (ledger (serve_all debug reqs s) client_ip) ≤
   length (ledger s client_ip) + length (generate_times client_ip reqs))%nat.
Proof.
  revert s. induction reqs as [|req reqs IH]; intros s; [cbn; lia|].
  cbn [serve_all]. etrans; [apply IH|].
  unfold generate_times. cbn [map concat]. rewrite length_app.
  fold (generate_times client_ip reqs).
  destruct (serve_ledger_cases debug req s client_ip)
    as [->|[now [env [-> [[_ [_ ->]]|[_ [_ ->]]]]]]].
  - lia.
  - pose proof (length_filter (λ t, (now - t < inject_Z 60)%Q) (ledger s client_ip)) as Hle.
    unfold within. lia.
  - pose proof (length_filter (λ t, (now - t < inject_Z 60)%Q) (ledger s client_ip)) as Hle.
    unfold within. rewrite length_app. cbn [generate_time].
    rewrite bool_decide_eq_true_2 by done. cbn [length]. lia.
Qed.

(** X22. The first five generate calls of a client are never rejected,
    whatever their times and whatever other clients do: as long as the
    timestamps recorded for the client at the start and its generate
    calls since are fewer than five together, its next generate call is
    answered 200. *)
Theorem generate_admitted_below_five (debug : bool) (reqs : list Request) (s : Store)
    (client_ip : string) (now : Q) (env : nat → AttemptEnv) :
  (length (ledger s client_ip) + length (generate_times client_ip reqs) < 5)%nat →
  status_code (fst (serve debug (PostGenerate client_ip now env) (serve_all debug reqs s)))
  = 200.
Proof.
  intros Hfew. unfold serve. cbn [view].
  destruct (api_generate_cases client_ip now env (serve_all debug reqs s))
    as [[Hfull Hrun]|[Hroom [r [s' [Hrun [Hcode Hrl]]]]]]; rewrite Hrun; cbn [fst]; [|done].
  pose proof (serve_all_ledger_length debug reqs s client_ip) as Hlen.
  pose proof (length_filter (λ t, (now - t < inject_Z 60)%Q)
                (ledger (serve_all debug reqs s) client_ip)) as Hle.
  unfold within in Hfull. lia.
Qed.

Lemma generate_admitted_below_five_witness :
  status_code (fst (serve false (PostGenerate "198.51.100.7" 0 third_time_lucky)
                      (serve_all false (five_calls "203.0.113.9") initial_store)))
  = 200.
Proof.
  apply (generate_admitted_below_five false (five_calls "203.0.113.9") initial_store
           "198.51.100.7" 0 third_time_lucky).
  vm_compute. lia.
Defined.

(** X23. A generation seen in the export.  When the answer of
    [generate_account] says success, the export afterwards counts one
    more and its text starts with the five lines of a new success record
    at the head of accounts; when the answer says failure, with or
    without a failed record, the export is what it was. *)
Theorem export_after_generation (env : nat → AttemptEnv) (s : Store) :
  let r := generate_account env s in
  ∃ response,
    fst r = Val response ∧
    match py_get (body response) "success" JNull with
    | Val (JBool true) =>
        ∃ a,
          accounts (snd r) = a :: accounts s ∧
          status a = success ∧
          fst (export_accounts (snd r)) =
            Val (export_response
                   (join newline (export_entry a) +:+
                    (if (length (List.filter is_success (accounts s)) =? 0)%nat then ""
                     else newline +:+ export_content (accounts s)))
                   (S (length (List.filter is_success (accounts s)))))
    | _ => fst (export_accounts (snd r)) = fst (export_accounts s)
    end.
Proof.
  intros r. subst r.
  destruct (generate_account_store env s)
    as [calls _ | before i after calls d _ _ _ _ | before i after calls msg _ _ _];
    eexists; (split; [reflexivity|]); cbn [fst snd body py_get jsonify max_attempts_reached
      success_response failure_response dict_get dict_lookup String.eqb Ascii.eqb Bool.eqb].
  - reflexivity.
  - exists (success_account (env i) d). split; [done|]. split; [done|].
    rewrite export_accounts_run. cbn [fst accounts record_success with_accounts with_settings
                                       sent_all with_outbound].
    by rewrite export_content_cons.
  - reflexivity.
Qed.
